(** * Video player components: retry and fallback logic

  A shallow embedding of the two React components

    - [src/components/SocialMediaPlayer.tsx]
    - [src/components/UniversalVideoPlayer.tsx]

  Each component is a record of [useState] cells and timer references, a
  [render] function from props and state to the surface that is shown, and
  one transition per event handler or effect.  A transition returns the new
  component together with the list of prop callbacks and log lines it
  produced, in source order.

  JavaScript strings are [string]s holding the UTF-8 bytes of the text. *)

From Stdlib Require Import String Ascii List ZArith NArith Bool Lia.
From Stdlib Require Import DecimalString.
Import ListNotations.

Local Open Scope string_scope.

(* ================================================================== *)
(** ** The JavaScript primitives the components rely on *)

Module JS.

(** Truthiness of a [string | null | undefined] value: [null], [undefined]
    and the empty string are falsy. *)
Definition truthy (s : option string) : bool :=
  match s with
  | Some (String _ _) => true
  | _ => false
  end.

(** [a || d] on a possibly missing string with a string default. *)
Definition or_else (s : option string) (d : string) : string :=
  match s with
  | Some (String c r) => String c r
  | _ => d
  end.

(** Template interpolation [`${x}`] of a possibly missing string. *)
Definition interpolate (s : option string) : string :=
  match s with
  | Some v => v
  | None => "undefined"
  end.

(** [String(n)] for an integral number. *)
Definition Number_toString (n : Z) : string :=
  NilZero.string_of_int (Z.to_int n).

Definition byte (c : ascii) : N := N_of_ascii c.

(** *** [String.prototype.trim]

    The ECMAScript white space and line terminator code points, read off
    their UTF-8 encodings: one byte (TAB, LF, VT, FF, CR, SP), two bytes
    (U+00A0) or three bytes (U+1680, U+2000..U+200A, U+2028, U+2029, U+202F,
    U+205F, U+3000, U+FEFF). *)
Definition isWhiteSpace1 (a : ascii) : bool :=
  ((9 <=? byte a) && (byte a <=? 13) || (byte a =? 32))%N.

Definition isWhiteSpace2 (a b : ascii) : bool :=
  ((byte a =? 194) && (byte b =? 160))%N.

Definition isWhiteSpace3 (a b c : ascii) : bool :=
  ((byte a =? 225) && (byte b =? 154) && (byte c =? 128)
   || (byte a =? 226) && (byte b =? 128)
      && ((128 <=? byte c) && (byte c <=? 138)
          || (byte c =? 168) || (byte c =? 169) || (byte c =? 175))
   || (byte a =? 226) && (byte b =? 129) && (byte c =? 159)
   || (byte a =? 227) && (byte b =? 128) && (byte c =? 128)
   || (byte a =? 239) && (byte b =? 187) && (byte c =? 191))%N.

(** Drops the white space at the head of a byte list.  With [fwd = false]
    the list is read back to front (it is the reversal of a string), so the
    bytes of a code point arrive last byte first. *)
Fixpoint dropWhiteSpace (fwd : bool) (s : list ascii) : list ascii :=
  match s with
  | [] => []
  | c1 :: r1 =>
      if isWhiteSpace1 c1 then dropWhiteSpace fwd r1
      else
        match r1 with
        | [] => s
        | c2 :: r2 =>
            if (if fwd then isWhiteSpace2 c1 c2 else isWhiteSpace2 c2 c1)
            then dropWhiteSpace fwd r2
            else
              match r2 with
              | [] => s
              | c3 :: r3 =>
                  if (if fwd then isWhiteSpace3 c1 c2 c3
                      else isWhiteSpace3 c3 c2 c1)
                  then dropWhiteSpace fwd r3
                  else s
              end
        end
  end.

Definition trim (s : string) : string :=
  string_of_list_ascii
    (rev (dropWhiteSpace false
            (rev (dropWhiteSpace true (list_ascii_of_string s))))).

(** *** [URLSearchParams.prototype.toString]

    The application/x-www-form-urlencoded serializer: a space becomes [+],
    the bytes of [*-._0-9A-Za-z] stand for themselves, every other byte is
    percent-encoded with upper-case hexadecimal digits; pairs are written
    [name=value] and joined with [&], in insertion order. *)
Definition hexDigit (n : N) : ascii :=
  if (n <? 10)%N then ascii_of_N (48 + n) else ascii_of_N (55 + n).

Definition isUrlSafe (c : ascii) : bool :=
  let n := byte c in
  ((48 <=? n) && (n <=? 57) || (65 <=? n) && (n <=? 90)
   || (97 <=? n) && (n <=? 122)
   || (n =? 42) || (n =? 45) || (n =? 46) || (n =? 95))%N.

Fixpoint urlencode (s : string) : string :=
  match s with
  | EmptyString => EmptyString
  | String c r =>
      if (byte c =? 32)%N then String "+" (urlencode r)
      else if isUrlSafe c then String c (urlencode r)
      else String "%" (String (hexDigit (byte c / 16))
                         (String (hexDigit (byte c mod 16)) (urlencode r)))
  end.

Definition URLSearchParams_toString (params : list (string * string)) : string :=
  String.concat "&"
    (map (fun kv => urlencode (fst kv) ++ "=" ++ urlencode (snd kv)) params).

End JS.

(* ================================================================== *)
(** ** Event handlers as state transitions

    A handler runs on a component [C], may call prop callbacks and write log
    lines (the outputs [O], kept in source order) and may throw: the result
    [None] is a [TypeError] raised by reading a property of [undefined]; the
    state updates queued before the throw stay queued. *)

Module Handler.

Definition Run (C O A : Type) : Type := C -> option A * C * list O.

Definition ret {C O A} (a : A) : Run C O A := fun c => (Some a, c, []).

Definition bind {C O A B} (m : Run C O A) (k : A -> Run C O B) : Run C O B :=
  fun c =>
    match m c with
    | (Some a, c1, o1) =>
        match k a c1 with
        | (b, c2, o2) => (b, c2, (o1 ++ o2)%list)
        end
    | (None, c1, o1) => (None, c1, o1)
    end.

Definition emit {C O} (o : O) : Run C O unit := fun c => (Some tt, c, [o]).

Definition modify {C O} (f : C -> C) : Run C O unit := fun c => (Some tt, f c, []).

Definition throw {C O A} : Run C O A := fun c => (None, c, []).

(** [cb?.(args)]: the call happens when the optional prop was passed. *)
Definition call {C O} (given : bool) (o : O) : Run C O unit :=
  if given then emit o else ret tt.

Definition skip {C O} : Run C O unit := ret tt.

End Handler.

Declare Scope handler_scope.
Delimit Scope handler_scope with handler.
Notation "m ;; k" := (Handler.bind m (fun _ => k))
  (at level 61, right associativity) : handler_scope.
Local Open Scope handler_scope.

(* ================================================================== *)
(** ** The utility modules the components import

    [@/utils/socialMediaPlayer], [@/utils/videoSourceDetector] and
    [@/providers/MembershipProvider] are imported by the two components; the
    components are written against the interfaces below, whose fields are the
    ones the components read. *)

Module Utils.

(** An embed strategy of a social media platform. *)
Record EmbedStrategy := {
  name : string;
  getEmbedUrl : string -> option string
}.

Record SocialMediaConfig := {
  platform : string;
  embedStrategies : list EmbedStrategy
}.

(** The result of [detectVideoSource]. *)
Record VideoSourceInfo := {
  type : string;
  sourcePlatform : string;
  requiresWebView : bool;
  requiresAgeVerification : bool;
  videoId : option string
}.

(** The result of [canPlayVideo]. *)
Record PlaybackEligibility := {
  canPlay : bool;
  reason : option string
}.

Class SocialMediaUtils := {
  getSocialMediaConfig : string -> option SocialMediaConfig
}.

Class VideoSourceDetector := {
  detectVideoSource : string -> VideoSourceInfo;
  canPlayVideo : string -> string -> PlaybackEligibility
}.

(** [useMembership()]: the membership tier of the current user. *)
Class MembershipProvider := {
  tier : string
}.

End Utils.

(* ================================================================== *)
(** ** [SocialMediaPlayer.tsx] *)

Module SocialMediaPlayer.
Import Handler Utils.

(** The props of the component.  An optional callback prop is recorded by
    whether it was passed; its calls appear among the outputs. *)
Record Props := {
  url : string;
  onError : bool;
  onLoad : bool;
  onPlaybackStart : bool;
  autoRetry : bool;
  maxRetries : Z
}.

(** Props with the defaults of the parameter list: [autoRetry = true],
    [maxRetries = 3], no callback. *)
Definition defaultProps (u : string) : Props :=
  {| url := u; onError := false; onLoad := false; onPlaybackStart := false;
     autoRetry := true; maxRetries := 3 |}.

(** The [useState] cells. *)
Record State := {
  isLoading : bool;
  error : option string;
  currentStrategyIndex : nat;
  retryCount : nat;
  embedUrl : option string
}.

(** The component: its state and [retryTimeoutRef], read as whether the
    timer it holds is still pending. *)
Record Component := {
  state : State;
  retryTimeoutRef : bool
}.

Definition initialState : State :=
  {| isLoading := true; error := None; currentStrategyIndex := 0;
     retryCount := 0; embedUrl := None |}.

Definition initial : Component :=
  {| state := initialState; retryTimeoutRef := false |}.

(** What a handler lets out: the calls of the callback props and two of the
    log lines, [Trying strategy {index + 1}/{total}: {name}] (kept with the
    index itself, counted from 0) and the line of [logAttempt]. *)
Inductive Output :=
| CallOnError (message : string)
| CallOnLoad
| CallOnPlaybackStart
| LogTrying (index total : nat) (strategyName : string)
| LogAttempt (strategyName : string) (success : bool) (err : option string).

Definition Action := Run Component Output unit.

(** The payload of the WebView events. *)
Record ErrorEvent := { description : option string }.
Record HttpErrorEvent := { statusCode : Z }.

Definition onState (f : State -> State) : Action :=
  modify (fun c => {| state := f (state c); retryTimeoutRef := retryTimeoutRef c |}).

Definition setIsLoading (v : bool) : Action :=
  onState (fun s => {| isLoading := v; error := error s;
                       currentStrategyIndex := currentStrategyIndex s;
                       retryCount := retryCount s; embedUrl := embedUrl s |}).

Definition setError (v : option string) : Action :=
  onState (fun s => {| isLoading := isLoading s; error := v;
                       currentStrategyIndex := currentStrategyIndex s;
                       retryCount := retryCount s; embedUrl := embedUrl s |}).

Definition setCurrentStrategyIndex (f : nat -> nat) : Action :=
  onState (fun s => {| isLoading := isLoading s; error := error s;
                       currentStrategyIndex := f (currentStrategyIndex s);
                       retryCount := retryCount s; embedUrl := embedUrl s |}).

Definition setRetryCount (f : nat -> nat) : Action :=
  onState (fun s => {| isLoading := isLoading s; error := error s;
                       currentStrategyIndex := currentStrategyIndex s;
                       retryCount := f (retryCount s); embedUrl := embedUrl s |}).

Definition setEmbedUrl (v : option string) : Action :=
  onState (fun s => {| isLoading := isLoading s; error := error s;
                       currentStrategyIndex := currentStrategyIndex s;
                       retryCount := retryCount s; embedUrl := v |}).

(** [clearTimeout(retryTimeoutRef.current)] followed by
    [retryTimeoutRef.current = setTimeout(..., 1000)]: the pending timer, if
    any, is replaced by one pending timer. *)
Definition scheduleRetry : Action :=
  modify (fun c => {| state := state c; retryTimeoutRef := true |}).

Definition logAttempt (strategyName : string) (success : bool)
  (err : option string) : Action :=
  emit (LogAttempt strategyName success err).

(** The outputs of [onError?.(message)]. *)
Definition reported (p : Props) (message : string) : list Output :=
  if onError p then [CallOnError message] else [].

(** The component once every strategy of [cfg] has been given up. *)
Definition exhausted (cfg : SocialMediaConfig) (c : Component) : Component :=
  {| state := {| isLoading := false;
                 error := Some ("Failed to load " ++ platform cfg
                                ++ " video after trying all strategies");
                 currentStrategyIndex := List.length (embedStrategies cfg);
                 retryCount := retryCount (state c);
                 embedUrl := embedUrl (state c) |};
     retryTimeoutRef := retryTimeoutRef c |}.

(** Outputs that are an [onLoad] or [onPlaybackStart] call. *)
Definition harmless (o : Output) : Prop :=
  o = CallOnLoad \/ o = CallOnPlaybackStart.

Section Component.
Context {U : SocialMediaUtils}.

Definition config (p : Props) : option SocialMediaConfig :=
  getSocialMediaConfig (url p).

(** [tryNextStrategy], with the state [s] its closure was created with. *)
Definition tryNextStrategy (p : Props) (s : State) : Action :=
  match config p with
  | None =>
      let errorMsg := "Unsupported social media platform" in
      setError (Some errorMsg) ;;
      call (onError p) (CallOnError errorMsg)
  | Some cfg =>
      if (List.length (embedStrategies cfg) <=? currentStrategyIndex s)%nat then
        let errorMsg :=
          "Failed to load " ++ platform cfg ++ " video after trying all strategies" in
        setError (Some errorMsg) ;;
        call (onError p) (CallOnError errorMsg) ;;
        setIsLoading false
      else
        match nth_error (embedStrategies cfg) (currentStrategyIndex s) with
        | None => throw
        | Some strategy =>
            emit (LogTrying (currentStrategyIndex s)
                    (List.length (embedStrategies cfg)) (name strategy)) ;;
            let newEmbedUrl := getEmbedUrl strategy (url p) in
            if negb (JS.truthy newEmbedUrl) then
              logAttempt (name strategy) false (Some "Failed to generate embed URL") ;;
              setCurrentStrategyIndex (fun prev => prev + 1)
            else
              setEmbedUrl newEmbedUrl ;;
              setIsLoading true ;;
              setError None
        end
  end.

(** The effect with no dependency (lines 85-95): runs once, on mount. *)
Definition mountEffect (p : Props) (s : State) : Action :=
  match config p with
  | None =>
      let errorMsg := "Unsupported social media platform" in
      setError (Some errorMsg) ;;
      call (onError p) (CallOnError errorMsg)
  | Some _ => tryNextStrategy p s
  end.

(** The effect that depends on [currentStrategyIndex] (lines 97-102). *)
Definition indexEffect (p : Props) (s : State) : Action :=
  if (0 <? currentStrategyIndex s)%nat
     && match config p with Some _ => true | None => false end
  then tryNextStrategy p s
  else skip.

Definition handleLoadStart : Action := setIsLoading true.

Definition handleLoadEnd (p : Props) (s : State) : Action :=
  setIsLoading false ;;
  match config p with
  | Some cfg =>
      match nth_error (embedStrategies cfg) (currentStrategyIndex s) with
      | Some strategy => logAttempt (name strategy) true None
      | None => throw
      end
  | None => skip
  end ;;
  call (onLoad p) CallOnLoad ;;
  call (onPlaybackStart p) CallOnPlaybackStart.

(** [currentStrategyIndex < config.embedStrategies.length - 1], on numbers:
    the right-hand side is [-1] for an empty list. *)
Definition hasNextStrategy (cfg : SocialMediaConfig) (s : State) : bool :=
  (Z.of_nat (currentStrategyIndex s)
   <? Z.of_nat (List.length (embedStrategies cfg)) - 1)%Z.

Definition handleError (p : Props) (s : State) (nativeEvent : ErrorEvent) : Action :=
  match config p with
  | None => skip
  | Some cfg =>
      match nth_error (embedStrategies cfg) (currentStrategyIndex s) with
      | None => throw
      | Some strategy =>
          let errorMsg := JS.or_else (description nativeEvent) "Unknown error" in
          logAttempt (name strategy) false (Some errorMsg) ;;
          if autoRetry p && hasNextStrategy cfg s then
            scheduleRetry
          else
            let finalError :=
              "Failed to load " ++ platform cfg ++ " video: " ++ errorMsg in
            setError (Some finalError) ;;
            setIsLoading false ;;
            call (onError p) (CallOnError finalError)
      end
  end.

Definition handleHttpError (p : Props) (s : State) (nativeEvent : HttpErrorEvent) : Action :=
  match config p with
  | Some cfg =>
      if (400 <=? statusCode nativeEvent)%Z then
        match nth_error (embedStrategies cfg) (currentStrategyIndex s) with
        | None => throw
        | Some strategy =>
            let errorMsg := "HTTP " ++ JS.Number_toString (statusCode nativeEvent) in
            logAttempt (name strategy) false (Some errorMsg) ;;
            if autoRetry p && hasNextStrategy cfg s then
              scheduleRetry
            else
              let finalError :=
                "HTTP Error " ++ JS.Number_toString (statusCode nativeEvent) in
              setError (Some finalError) ;;
              setIsLoading false ;;
              call (onError p) (CallOnError finalError)
        end
      else skip
  | None => skip
  end.

Definition handleManualRetry : Action :=
  setRetryCount (fun prev => prev + 1) ;;
  setCurrentStrategyIndex (fun _ => 0) ;;
  setError None.

(** The callback of the retry timer: the timer has fired, so nothing is
    pending any more, and the index moves on. *)
Definition retryTimeoutCallback : Action :=
  modify (fun c => {| state := state c; retryTimeoutRef := false |}) ;;
  setCurrentStrategyIndex (fun prev => prev + 1).

(** *** Rendering *)

(** What the component shows.  [UnsupportedPlatformView] and [ErrorView] are
    the two results of [renderError]; [RenderThrows] is the [TypeError] of
    reading [strategy.headers] when the index has no strategy. *)
Inductive View :=
| UnsupportedPlatformView
| ErrorView (message : option string) (attempted total : nat)
    (retryButton maxRetriesNotice : bool)
| WebViewSurface (uri : string) (strategyName : string) (loadingOverlay : bool)
| RenderThrows.

Definition renderError (p : Props) (s : State) : View :=
  match config p with
  | None => UnsupportedPlatformView
  | Some cfg =>
      ErrorView (error s) (currentStrategyIndex s + 1)
        (List.length (embedStrategies cfg))
        (Z.of_nat (retryCount s) <? maxRetries p)%Z
        (maxRetries p <=? Z.of_nat (retryCount s))%Z
  end.

Definition render (p : Props) (s : State) : View :=
  match config p, embedUrl s with
  | Some cfg, Some (String a r) =>
      match nth_error (embedStrategies cfg) (currentStrategyIndex s) with
      | None => RenderThrows
      | Some strategy =>
          if JS.truthy (error s) then renderError p s
          else WebViewSurface (String a r) (name strategy) (isLoading s)
      end
  | _, _ => renderError p s
  end.

Definition webViewMounted (p : Props) (s : State) : bool :=
  match render p s with
  | WebViewSurface _ _ _ => true
  | _ => false
  end.

Definition retryButtonShown (v : View) : bool :=
  match v with
  | ErrorView _ _ _ b _ => b
  | _ => false
  end.

Definition maxRetriesNoticeShown (v : View) : bool :=
  match v with
  | ErrorView _ _ _ _ b => b
  | _ => false
  end.

(** *** The effect loop

    After a commit React runs the effects whose dependencies changed.  Only
    [indexEffect] has a dependency, [currentStrategyIndex]; it runs with the
    closure of the render that was just committed, and the state it sets
    causes the next commit.  [flushEffects fuel p prev c] runs that loop from
    a component [c] whose previous commit had index [prev]; the result is
    [None] when [fuel] commits were not enough. *)
Fixpoint flushEffects (fuel : nat) (p : Props) (prev : nat) (c : Component)
  : option (option unit * Component * list Output) :=
  if (currentStrategyIndex (state c) =? prev)%nat then Some (Some tt, c, [])
  else
    match fuel with
    | O => None
    | S fuel' =>
        match indexEffect p (state c) c with
        | (Some _, c1, o1) =>
            match flushEffects fuel' p (currentStrategyIndex (state c)) c1 with
            | Some (r, c2, o2) => Some (r, c2, (o1 ++ o2)%list)
            | None => None
            end
        | (None, c1, o1) => Some (None, c1, o1)
        end
    end.

(** A handler followed by the effects its state updates trigger. *)
Definition thenFlush (fuel : nat) (p : Props) (a : Action) (c : Component)
  : option (option unit * Component * list Output) :=
  match a c with
  | (Some _, c1, o1) =>
      match flushEffects fuel p (currentStrategyIndex (state c)) c1 with
      | Some (r, c2, o2) => Some (r, c2, (o1 ++ o2)%list)
      | None => None
      end
  | (None, c1, o1) => Some (None, c1, o1)
  end.

(** Mounting: both effects run with the closure of the first render. *)
Definition mount (fuel : nat) (p : Props)
  : option (option unit * Component * list Output) :=
  thenFlush fuel p (mountEffect p initialState ;; indexEffect p initialState) initial.

(** *** Events *)

Inductive Event :=
| LoadStart
| LoadEnd
| LoadError (nativeEvent : ErrorEvent)
| HttpError (nativeEvent : HttpErrorEvent)
| ManualRetry
| RetryTimeout.

(** The handler of an event, created by the render of the current state. *)
Definition handler (p : Props) (e : Event) : Action :=
  fun c =>
    match e with
    | LoadStart => handleLoadStart c
    | LoadEnd => handleLoadEnd p (state c) c
    | LoadError ev => handleError p (state c) ev c
    | HttpError ev => handleHttpError p (state c) ev c
    | ManualRetry => handleManualRetry c
    | RetryTimeout => if retryTimeoutRef c then retryTimeoutCallback c else skip c
    end.

Definition step (fuel : nat) (p : Props) (e : Event) (c : Component)
  : option (option unit * Component * list Output) :=
  thenFlush fuel p (handler p e) c.

(** A sequence of events; it stops at the first throw. *)
Fixpoint run (fuel : nat) (p : Props) (es : list Event) (c : Component)
  : option (option unit * Component * list Output) :=
  match es with
  | [] => Some (Some tt, c, [])
  | e :: es' =>
      match step fuel p e c with
      | Some (Some _, c1, o1) =>
          match run fuel p es' c1 with
          | Some (r, c2, o2) => Some (r, c2, (o1 ++ o2)%list)
          | None => None
          end
      | other => other
      end
  end.

(** The log of trying the strategies [l], the first of which has index
    [index], when none of them can build an embed URL. *)
Fixpoint failedAttempts (total index : nat) (l : list EmbedStrategy) : list Output :=
  match l with
  | [] => []
  | strategy :: r =>
      LogTrying index total (name strategy)
      :: LogAttempt (name strategy) false (Some "Failed to generate embed URL")
      :: failedAttempts total (S index) r
  end.

(** The strategies whose [getEmbedUrl] was called, in order, read off the
    log. *)
Fixpoint strategiesTried (os : list Output) : list nat :=
  match os with
  | [] => []
  | LogTrying i _ _ :: r => i :: strategiesTried r
  | _ :: r => strategiesTried r
  end.

(** [n] commits in a row, each followed by the index effect of its render;
    it stops at a throw. *)
Fixpoint indexEffects (n : nat) (p : Props) (c : Component)
  : option unit * Component * list Output :=
  match n with
  | O => (Some tt, c, [])
  | S k =>
      match indexEffect p (state c) c with
      | (Some _, c1, o1) =>
          match indexEffects k p c1 with
          | (r, c2, o2) => (r, c2, (o1 ++ o2)%list)
          end
      | (None, c1, o1) => (None, c1, o1)
      end
  end.

(** The index has a strategy, and so does the next index while a retry
    timer is pending. *)
Definition inBounds (cfg : SocialMediaConfig) (c : Component) : Prop :=
  currentStrategyIndex (state c) < List.length (embedStrategies cfg)
  /\ (retryTimeoutRef c = true ->
      currentStrategyIndex (state c) + 1 < List.length (embedStrategies cfg))
  /\ JS.truthy (embedUrl (state c)) = true.

End Component.
End SocialMediaPlayer.

(* ================================================================== *)
(** ** [UniversalVideoPlayer.tsx] *)

Module UniversalVideoPlayer.
Import Handler Utils.

Record Props := {
  url : string;
  onError : bool;
  onPlaybackStart : bool;
  onPlaybackEnd : bool;
  autoPlay : bool;
  onAgeVerificationRequired : bool;
  loadTimeout : Z;
  maxRetries : Z
}.

(** Props with the defaults of the parameter list: [autoPlay = false],
    [loadTimeout = 30000], [maxRetries = 3], no callback. *)
Definition defaultProps (u : string) : Props :=
  {| url := u; onError := false; onPlaybackStart := false;
     onPlaybackEnd := false; autoPlay := false;
     onAgeVerificationRequired := false; loadTimeout := 30000;
     maxRetries := 3 |}.

(** The [useState] cells the load, error and retry handlers read or write.
    The cells of the native player controls ([isPlaying], [isMuted],
    [isFullscreen], [showControls]) and [loadStartTime], which is only
    logged, are left out: no handler below touches them.  The status
    listener of the native player (lines 169-210) is modelled apart, at the
    end of this module; the controls timer (lines 116-133) is not
    modelled. *)
Record State := {
  isLoading : bool;
  playbackError : option string;
  retryCount : nat
}.

(** The component: its state, [loadTimeoutRef] and the retry timers.
    [loadTimeoutRef] holds the pending load timeout, kept as the state that
    the [handleLoadTimeout] passed to [setTimeout] closes over.  The timers
    started by [onError] and [onHttpError] are not kept in any ref; their
    callbacks are all the same, so their number is what matters. *)
Record Component := {
  state : State;
  loadTimeoutRef : option State;
  retryTimers : nat
}.

Definition initialState : State :=
  {| isLoading := true; playbackError := None; retryCount := 0 |}.

Definition initial : Component :=
  {| state := initialState; loadTimeoutRef := None; retryTimers := 0 |}.

Inductive Output :=
| CallOnError (message : string)
| CallOnAgeVerificationRequired.

Definition Action := Run Component Output unit.

Record ErrorEvent := { description : option string }.
Record HttpErrorEvent := { statusCode : Z; nativeUrl : string }.

Definition onState (f : State -> State) : Action :=
  modify (fun c => {| state := f (state c); loadTimeoutRef := loadTimeoutRef c;
                      retryTimers := retryTimers c |}).

Definition setIsLoading (v : bool) : Action :=
  onState (fun s => {| isLoading := v; playbackError := playbackError s;
                       retryCount := retryCount s |}).

Definition setPlaybackError (v : option string) : Action :=
  onState (fun s => {| isLoading := isLoading s; playbackError := v;
                       retryCount := retryCount s |}).

Definition setRetryCount (f : nat -> nat) : Action :=
  onState (fun s => {| isLoading := isLoading s; playbackError := playbackError s;
                       retryCount := f (retryCount s) |}).

Definition nl : string := String (ascii_of_nat 10) EmptyString.

Definition sampleUrl : string :=
  "https://commondatastorage.googleapis.com/gtv-videos-bucket/sample/BigBuckBunny.mp4".

Definition timeoutError : string :=
  "Video load timeout. The video is taking too long to load.".

Definition youtubeLoadError (p : Props) : string :=
  "YouTube 視頻載入失敗"
  ++ nl
  ++ nl
  ++ "可能原因："
  ++ nl
  ++ "• 視頻被設為私人或已刪除"
  ++ nl
  ++ "• 視頻限制嵌入播放"
  ++ nl
  ++ "• 地區限制"
  ++ nl
  ++ "• 網路連線問題"
  ++ nl
  ++ nl
  ++ "已嘗試 "
  ++ JS.Number_toString (maxRetries p)
  ++ " 種不同的載入方式。"
  ++ nl
  ++ nl
  ++ "建議："
  ++ nl
  ++ "1. 檢查視頻連結是否正確"
  ++ nl
  ++ "2. 在瀏覽器中測試是否能播放"
  ++ nl
  ++ "3. 稍後再試".

Definition adultLoadError (platformName : string) : string :=
  platformName ++ " 無法載入。這可能是由於網站結構變更或網路問題。請確認連結有效或稍後再試。".

(** *** Embed URLs *)

Definition flag (b : bool) : string := if b then "1" else "0".

Definition getYouTubeEmbedUrl (p : Props) (videoId : string) : string :=
  let params := JS.URLSearchParams_toString
    [ ("autoplay", flag (autoPlay p)); ("playsinline", "1"); ("rel", "0");
      ("modestbranding", "1"); ("fs", "1"); ("iv_load_policy", "3");
      ("enablejsapi", "1"); ("controls", "1"); ("showinfo", "0");
      ("cc_load_policy", "0"); ("disablekb", "0");
      ("widget_referrer", "https://rork.app") ] in
  "https://www.youtube.com/embed/" ++ videoId ++ "?" ++ params.

Definition getYouTubeWebPlayerUrl (p : Props) (videoId : string) : string :=
  "https://www.youtube.com/watch?v=" ++ videoId ++ "&autoplay=" ++ flag (autoPlay p).

Definition getYouTubeNoEmbedUrl (p : Props) (videoId : string) : string :=
  let params := JS.URLSearchParams_toString
    [ ("autoplay", flag (autoPlay p)); ("playsinline", "1"); ("rel", "0");
      ("modestbranding", "1"); ("controls", "1"); ("fs", "1");
      ("enablejsapi", "0") ] in
  "https://www.youtube-nocookie.com/embed/" ++ videoId ++ "?" ++ params.

Definition getVimeoEmbedUrl (p : Props) (videoId : string) : string :=
  "https://player.vimeo.com/video/" ++ videoId ++ "?autoplay=" ++ flag (autoPlay p).

(** *** Load timeout and retry timers *)

(** [handleLoadTimeout], with the state [s] its closure was created with. *)
Definition handleLoadTimeout (p : Props) (s : State) : Action :=
  if (Z.of_nat (retryCount s) <? maxRetries p)%Z then
    setRetryCount (fun prev => prev + 1) ;;
    setIsLoading true ;;
    setPlaybackError None
  else
    setPlaybackError (Some timeoutError) ;;
    setIsLoading false ;;
    call (onError p) (CallOnError timeoutError).

(** Replaces the pending load timeout by one that will run the
    [handleLoadTimeout] of the render with state [s]. *)
Definition startLoadTimeout (s : State) : Action :=
  modify (fun c => {| state := state c; loadTimeoutRef := Some s;
                      retryTimers := retryTimers c |}).

Definition clearLoadTimeout : Action :=
  modify (fun c => {| state := state c; loadTimeoutRef := None;
                      retryTimers := retryTimers c |}).

(** [setTimeout(() => { setRetryCount(prev => prev + 1); setIsLoading(true);
    setPlaybackError(null); }, delay)]: one more timer is pending. *)
Definition scheduleRetry : Action :=
  modify (fun c => {| state := state c; loadTimeoutRef := loadTimeoutRef c;
                      retryTimers := S (retryTimers c) |}).

(** One of the pending retry timers fires. *)
Definition retryCallback : Action :=
  modify (fun c => {| state := state c; loadTimeoutRef := loadTimeoutRef c;
                      retryTimers := pred (retryTimers c) |}) ;;
  setRetryCount (fun prev => prev + 1) ;;
  setIsLoading true ;;
  setPlaybackError None.

(** The load timeout fires: its [handleLoadTimeout] runs, and the timer is
    no longer pending. *)
Definition loadTimeoutCallback (p : Props) : Action :=
  fun c =>
    match loadTimeoutRef c with
    | Some s => (clearLoadTimeout ;; handleLoadTimeout p s) c
    | None => skip c
    end.

Section Component.
Context {U : SocialMediaUtils} {D : VideoSourceDetector} {M : MembershipProvider}.

Definition sourceInfo (p : Props) : VideoSourceInfo := detectVideoSource (url p).

Definition playbackEligibility (p : Props) : PlaybackEligibility :=
  canPlayVideo (url p) tier.

Definition shouldUseNativePlayer (p : Props) : bool :=
  (type (sourceInfo p) =? "direct")
  || (type (sourceInfo p) =? "stream")
  || (type (sourceInfo p) =? "hls")
  || (type (sourceInfo p) =? "dash").

(** The URL handed to [useVideoPlayer]. *)
Definition safeUrl (p : Props) : string :=
  if shouldUseNativePlayer p && negb (url p =? "") && negb (JS.trim (url p) =? "")
  then url p
  else sampleUrl.

(** The effect of lines 95-114: eligibility and age verification. *)
Definition eligibilityEffect (p : Props) : Action :=
  (if negb (canPlay (playbackEligibility p)) then
     let error := JS.or_else (reason (playbackEligibility p)) "Cannot play this video" in
     setPlaybackError (Some error) ;;
     call (onError p) (CallOnError error)
   else skip) ;;
  (if requiresAgeVerification (sourceInfo p) then
     call (onAgeVerificationRequired p) CallOnAgeVerificationRequired
   else skip).

(** *** The WebView handlers, with the state [s] of the render that created
    them. *)

Definition onLoadStart (s : State) : Action :=
  setIsLoading true ;;
  startLoadTimeout s.

Definition onLoadEnd : Action :=
  clearLoadTimeout ;;
  setIsLoading false ;;
  setRetryCount (fun _ => 0).

Definition onWebViewError (p : Props) (s : State) (nativeEvent : ErrorEvent) : Action :=
  clearLoadTimeout ;;
  if type (sourceInfo p) =? "youtube" then
    if (Z.of_nat (retryCount s) <? maxRetries p)%Z then
      scheduleRetry
    else
      let error := youtubeLoadError p in
      setPlaybackError (Some error) ;;
      call (onError p) (CallOnError error)
  else if type (sourceInfo p) =? "adult" then
    if (Z.of_nat (retryCount s) <? maxRetries p)%Z then
      scheduleRetry
    else
      let error := adultLoadError (sourcePlatform (sourceInfo p)) in
      setPlaybackError (Some error) ;;
      call (onError p) (CallOnError error)
  else
    if (Z.of_nat (retryCount s) <? maxRetries p)%Z then
      scheduleRetry
    else
      let error := "Failed to load " ++ sourcePlatform (sourceInfo p) ++ ": "
                   ++ JS.interpolate (description nativeEvent) in
      setPlaybackError (Some error) ;;
      call (onError p) (CallOnError error).

Definition onHttpError (p : Props) (s : State) (nativeEvent : HttpErrorEvent) : Action :=
  clearLoadTimeout ;;
  if (400 <=? statusCode nativeEvent)%Z then
    if (Z.of_nat (retryCount s) <? maxRetries p)%Z
       && (500 <=? statusCode nativeEvent)%Z then
      scheduleRetry
    else
      let error := "HTTP Error " ++ JS.Number_toString (statusCode nativeEvent)
                   ++ ": " ++ nativeUrl nativeEvent in
      setPlaybackError (Some error) ;;
      call (onError p) (CallOnError error)
  else skip.

(** *** Rendering *)

Inductive View :=
| ErrorView (message : option string) (hint : option string)
| SocialMediaPlayerView (props : SocialMediaPlayer.Props)
| WebViewPlayer (uri : string)
| NativePlayer (source : string).

(** The four rendering strategies. *)
Inductive Strategy :=
| UseSocialMediaPlayer
| UseWebView
| UseNativePlayer
| ShowError.

Definition strategyOf (v : View) : Strategy :=
  match v with
  | ErrorView _ _ => ShowError
  | SocialMediaPlayerView _ => UseSocialMediaPlayer
  | WebViewPlayer _ => UseWebView
  | NativePlayer _ => UseNativePlayer
  end.

Definition renderError (p : Props) (s : State) : View :=
  ErrorView (playbackError s)
    (if negb (canPlay (playbackEligibility p)) then
       Some (if tier =? "free"
             then "Upgrade to Basic or Premium for full access"
             else "Please check your membership status")
     else None).

(** The [uri] that [renderWebViewPlayer] gives to the WebView. *)
Definition embedUrl (p : Props) (s : State) : string :=
  match type (sourceInfo p) =? "youtube", videoId (sourceInfo p) with
  | true, Some (String a r) =>
      if (retryCount s =? 0)%nat then getYouTubeEmbedUrl p (String a r)
      else if (retryCount s =? 1)%nat then getYouTubeWebPlayerUrl p (String a r)
      else getYouTubeNoEmbedUrl p (String a r)
  | _, _ =>
      match type (sourceInfo p) =? "vimeo", videoId (sourceInfo p) with
      | true, Some (String a r) => getVimeoEmbedUrl p (String a r)
      | _, _ => url p
      end
  end.

Definition renderWebViewPlayer (p : Props) (s : State) : View :=
  WebViewPlayer (embedUrl p s).

(** The native player shows the [player] made from [safeUrl]. *)
Definition renderNativePlayer (p : Props) : View :=
  NativePlayer (safeUrl p).

Definition useSocialMediaPlayer (p : Props) : bool :=
  match getSocialMediaConfig (url p) with Some _ => true | None => false end
  && ((type (sourceInfo p) =? "twitter")
      || (type (sourceInfo p) =? "instagram")
      || (type (sourceInfo p) =? "tiktok")).

Definition shouldUseWebView (p : Props) : bool :=
  negb (useSocialMediaPlayer p)
  && (requiresWebView (sourceInfo p)
      || (type (sourceInfo p) =? "youtube")
      || (type (sourceInfo p) =? "vimeo")
      || (type (sourceInfo p) =? "webview")
      || (type (sourceInfo p) =? "adult")
      || (type (sourceInfo p) =? "twitter")
      || (type (sourceInfo p) =? "instagram")
      || (type (sourceInfo p) =? "tiktok")
      || (type (sourceInfo p) =? "twitch")
      || (type (sourceInfo p) =? "facebook")
      || (type (sourceInfo p) =? "dailymotion")
      || (type (sourceInfo p) =? "rumble")
      || (type (sourceInfo p) =? "odysee")
      || (type (sourceInfo p) =? "bilibili")
      || (type (sourceInfo p) =? "gdrive")
      || (type (sourceInfo p) =? "dropbox")).

Definition shouldUseNativePlayerRender (p : Props) : bool :=
  negb (useSocialMediaPlayer p)
  && negb (shouldUseWebView p)
  && ((type (sourceInfo p) =? "direct")
      || (type (sourceInfo p) =? "stream")
      || (type (sourceInfo p) =? "hls")
      || (type (sourceInfo p) =? "dash")).

Definition render (p : Props) (s : State) : View :=
  if JS.truthy (playbackError s) then renderError p s
  else if useSocialMediaPlayer p then
    SocialMediaPlayerView
      {| SocialMediaPlayer.url := url p;
         SocialMediaPlayer.onError := onError p;
         SocialMediaPlayer.onLoad := true;
         SocialMediaPlayer.onPlaybackStart := onPlaybackStart p;
         SocialMediaPlayer.autoRetry := true;
         SocialMediaPlayer.maxRetries := 3 |}
  else if shouldUseWebView p then renderWebViewPlayer p s
  else if shouldUseNativePlayerRender p then renderNativePlayer p
  else renderError p s.

(** *** Events *)

Inductive Event :=
| LoadStart
| LoadEnd
| LoadError (nativeEvent : ErrorEvent)
| HttpError (nativeEvent : HttpErrorEvent)
| LoadTimeout
| RetryTimer.

(** An event can happen: the WebView sends events while it is rendered, a
    timer fires while it is pending. *)
Definition enabled (p : Props) (e : Event) (c : Component) : bool :=
  match e with
  | LoadTimeout => match loadTimeoutRef c with Some _ => true | None => false end
  | RetryTimer => (0 <? retryTimers c)%nat
  | _ => match render p (state c) with WebViewPlayer _ => true | _ => false end
  end.

(** The handler of an event, created by the render of the current state. *)
Definition handler (p : Props) (e : Event) : Action :=
  fun c =>
    match e with
    | LoadStart => onLoadStart (state c) c
    | LoadEnd => onLoadEnd c
    | LoadError ev => onWebViewError p (state c) ev c
    | HttpError ev => onHttpError p (state c) ev c
    | LoadTimeout => loadTimeoutCallback p c
    | RetryTimer => retryCallback c
    end.

Definition step (p : Props) (e : Event) (c : Component)
  : option (Component * list Output) :=
  if enabled p e c then
    match handler p e c with
    | (_, c1, o1) => Some (c1, o1)
    end
  else None.

(** A sequence of events from [c], with the outputs it produced; [None] when
    one of the events cannot happen in the state reached. *)
Fixpoint run (p : Props) (es : list Event) (c : Component)
  : option (Component * list Output) :=
  match es with
  | [] => Some (c, [])
  | e :: es' =>
      match step p e c with
      | Some (c1, o1) =>
          match run p es' c1 with
          | Some (c2, o2) => Some (c2, (o1 ++ o2)%list)
          | None => None
          end
      | None => None
      end
  end.

(** Mounting: the eligibility effect runs after the first render. *)
Definition mount (p : Props) : Component * list Output :=
  match eligibilityEffect p initial with
  | (_, c, o) => (c, o)
  end.

(** [n] load errors in a row, each followed by its retry timer. *)
Fixpoint retryRounds (nativeEvent : ErrorEvent) (n : nat) : list Event :=
  match n with
  | O => []
  | S k => LoadError nativeEvent :: RetryTimer :: retryRounds nativeEvent k
  end.

(** The outputs of [onError?.(message)]. *)
Definition reported (p : Props) (message : string) : list Output :=
  if onError p then [CallOnError message] else [].

(** *** The selection of the rendering strategy, as the specification words
    it: the social media player for a twitter, instagram or tiktok source
    with a config; else the WebView for a source that requires it or whose
    type is one of the listed ones; else the native player for a direct,
    stream, hls or dash source; else the error view. *)
Definition oneOf (t : string) (l : list string) : bool :=
  existsb (String.eqb t) l.

Definition webViewTypes : list string :=
  [ "youtube"; "vimeo"; "webview"; "adult"; "twitter"; "instagram"; "tiktok";
    "twitch"; "facebook"; "dailymotion"; "rumble"; "odysee"; "bilibili";
    "gdrive"; "dropbox" ].

Definition nativeTypes : list string := [ "direct"; "stream"; "hls"; "dash" ].

Definition selectedStrategy (p : Props) : Strategy :=
  match getSocialMediaConfig (url p) with
  | Some _ =>
      if oneOf (type (sourceInfo p)) [ "twitter"; "instagram"; "tiktok" ]
      then UseSocialMediaPlayer
      else if requiresWebView (sourceInfo p) || oneOf (type (sourceInfo p)) webViewTypes
      then UseWebView
      else if oneOf (type (sourceInfo p)) nativeTypes then UseNativePlayer
      else ShowError
  | None =>
      if requiresWebView (sourceInfo p) || oneOf (type (sourceInfo p)) webViewTypes
      then UseWebView
      else if oneOf (type (sourceInfo p)) nativeTypes then UseNativePlayer
      else ShowError
  end.

(** *** The status listener of the native player (lines 169-210) *)






(** [n] loads in a row that each run into the load timeout. *)
Fixpoint timeoutRounds (n : nat) : list Event :=
  match n with
  | O => []
  | S k => LoadStart :: LoadTimeout :: timeoutRounds k
  end.

(** [n] load errors in a row, each followed by the end of the load and then
    by its retry timer. *)
Fixpoint errorEndRounds (nativeEvent : ErrorEvent) (n : nat) : list Event :=
  match n with
  | O => []
  | S k => LoadError nativeEvent :: LoadEnd :: RetryTimer
           :: errorEndRounds nativeEvent k
  end.

End Component.
End UniversalVideoPlayer.

(* ================================================================== *)
(** ** Sample environments

    Instances of the utility interfaces, used to run the components on
    concrete inputs. *)

Module Samples.
Import Utils.

Definition tweet : string := "https://twitter.com/user/status/1".

Definition twitterConfig : SocialMediaConfig :=
  {| platform := "twitter";
     embedStrategies :=
       [ {| name := "embed";
            getEmbedUrl := fun u => Some ("https://platform.twitter.com/embed/Tweet.html?url=" ++ u) |};
         {| name := "direct"; getEmbedUrl := fun u => Some u |} ] |}.

(** A platform none of whose strategies can build an embed URL. *)
Definition barrenConfig : SocialMediaConfig :=
  {| platform := "tiktok";
     embedStrategies :=
       [ {| name := "embed"; getEmbedUrl := fun _ => None |};
         {| name := "oembed"; getEmbedUrl := fun _ => None |};
         {| name := "direct"; getEmbedUrl := fun _ => None |} ] |}.

Definition twitterUtils : SocialMediaUtils :=
  {| getSocialMediaConfig := fun _ => Some twitterConfig |}.

Definition barrenUtils : SocialMediaUtils :=
  {| getSocialMediaConfig := fun _ => Some barrenConfig |}.

Definition noSocialMedia : SocialMediaUtils :=
  {| getSocialMediaConfig := fun _ => None |}.

Definition reel : string := "https://www.instagram.com/reel/Cabc123".

(** Two strategies that build no URL (null, the empty string), then one
    that loads the url itself. *)
Definition lastResortConfig : SocialMediaConfig :=
  {| platform := "instagram";
     embedStrategies :=
       [ {| name := "embed"; getEmbedUrl := fun _ => None |};
         {| name := "oembed"; getEmbedUrl := fun _ => Some "" |};
         {| name := "direct"; getEmbedUrl := fun u => Some u |} ] |}.

Definition lastResortUtils : SocialMediaUtils :=
  {| getSocialMediaConfig := fun _ => Some lastResortConfig |}.

(** A strategy that builds a URL, then one that builds none. *)
Definition noFallbackConfig : SocialMediaConfig :=
  {| platform := "instagram";
     embedStrategies :=
       [ {| name := "embed"; getEmbedUrl := fun u => Some (u ++ "embed/") |};
         {| name := "oembed"; getEmbedUrl := fun _ => None |} ] |}.

Definition noFallbackUtils : SocialMediaUtils :=
  {| getSocialMediaConfig := fun _ => Some noFallbackConfig |}.

Definition youtubeVideo : string := "https://www.youtube.com/watch?v=dQw4w9WgXcQ".

(** Every url is a YouTube video that anyone may play. *)
Definition youtubeDetector : VideoSourceDetector :=
  {| detectVideoSource := fun _ =>
       {| type := "youtube"; sourcePlatform := "YouTube";
          requiresWebView := true; requiresAgeVerification := false;
          videoId := Some "dQw4w9WgXcQ" |};
     canPlayVideo := fun _ _ => {| canPlay := true; reason := None |} |}.

(** Every url is a tweet, which the free tier may not play. *)
Definition twitterDetector : VideoSourceDetector :=
  {| detectVideoSource := fun _ =>
       {| type := "twitter"; sourcePlatform := "Twitter";
          requiresWebView := true; requiresAgeVerification := false;
          videoId := None |};
     canPlayVideo := fun _ t =>
       if t =? "free"
       then {| canPlay := false;
               reason := Some "Social media videos require a paid membership" |}
       else {| canPlay := true; reason := None |} |}.

(** Every url is a Vimeo video that anyone may play. *)
Definition vimeoDetector : VideoSourceDetector :=
  {| detectVideoSource := fun _ =>
       {| type := "vimeo"; sourcePlatform := "Vimeo";
          requiresWebView := true; requiresAgeVerification := false;
          videoId := Some "76979871" |};
     canPlayVideo := fun _ _ => {| canPlay := true; reason := None |} |}.

(** Every url is a media file that anyone may play. *)
Definition directDetector : VideoSourceDetector :=
  {| detectVideoSource := fun _ =>
       {| type := "direct"; sourcePlatform := "Direct";
          requiresWebView := false; requiresAgeVerification := false;
          videoId := None |};
     canPlayVideo := fun _ _ => {| canPlay := true; reason := None |} |}.

Definition freeTier : MembershipProvider := {| tier := "free" |}.

Definition premiumTier : MembershipProvider := {| tier := "premium" |}.

End Samples.

(* ================================================================== *)
(** * Properties *)

(** ** JavaScript primitives *)

Module JSFacts.
Import JS.

Example trim_only_spaces : trim "   " = "".
Proof. reflexivity. Qed.

Example trim_keeps_inner_space : trim (String (ascii_of_nat 9) " a b ") = "a b".
Proof. reflexivity. Qed.

Example urlencode_referrer : urlencode "https://rork.app" = "https%3A%2F%2Frork.app".
Proof. reflexivity. Qed.

Example Number_toString_examples :
  Number_toString 503 = "503" /\ Number_toString 0 = "0" /\ Number_toString (-4) = "-4".
Proof. repeat split. Qed.

Lemma truthy_or_else (s : option string) (d : string) :
  d <> "" -> truthy (Some (or_else s d)) = true.
Proof.
  intros Hd. destruct s as [[|a r]|]; simpl; try reflexivity;
    destruct d; congruence.
Qed.

Lemma trim_empty : trim "" = "".
Proof. reflexivity. Qed.

End JSFacts.

(* ------------------------------------------------------------------ *)
(** ** SocialMediaPlayer *)

Module SocialMediaPlayerFacts.
Import Handler Utils SocialMediaPlayer.

(** Unfolds the handler combinators and the state setters. *)
Ltac exec :=
  cbv [bind ret emit modify throw call skip onState setIsLoading setError
       setCurrentStrategyIndex setRetryCount setEmbedUrl scheduleRetry
       logAttempt retryTimeoutCallback handleManualRetry handleLoadStart];
  cbn [state retryTimeoutRef isLoading error currentStrategyIndex retryCount
       embedUrl app fst snd].

Section Facts.
Context {U : SocialMediaUtils}.

Lemma render_webView_inv (p : Props) (s : State) :
  webViewMounted p s = true ->
  exists cfg strategy,
    config p = Some cfg
    /\ nth_error (embedStrategies cfg) (currentStrategyIndex s) = Some strategy
    /\ JS.truthy (embedUrl s) = true
    /\ JS.truthy (error s) = false.
Proof.
  unfold webViewMounted, render, renderError.
  destruct (config p) as [cfg|]; [|discriminate].
  destruct (embedUrl s) as [[|a r]|]; try discriminate.
  destruct (nth_error _ _) as [strategy|] eqn:Hnth; [|discriminate].
  destruct (JS.truthy (error s)) eqn:He; [discriminate|].
  intros _. exists cfg, strategy. auto.
Qed.

(** C6. [handleManualRetry] sets the strategy index to 0, clears the error
    and adds exactly one to the manual retry counter, touching nothing else.
    The retry button is shown only while [retryCount < maxRetries]; in the
    error view of a supported platform exactly one of the retry button and
    the max-retries notice is shown, the notice as soon as
    [retryCount >= maxRetries]. *)
Theorem handleManualRetry_affordance (p : Props) (c : Component) :
  handleManualRetry c
  = (Some tt,
     {| state := {| isLoading := isLoading (state c);
                    error := None;
                    currentStrategyIndex := 0;
                    retryCount := retryCount (state c) + 1;
                    embedUrl := embedUrl (state c) |};
        retryTimeoutRef := retryTimeoutRef c |},
     [])
  /\ (retryButtonShown (render p (state c)) = true ->
      (Z.of_nat (retryCount (state c)) < maxRetries p)%Z)
  /\ (maxRetriesNoticeShown (render p (state c)) = true ->
      (maxRetries p <= Z.of_nat (retryCount (state c)))%Z)
  /\ (forall cfg, config p = Some cfg ->
      exists message attempted total button notice,
        renderError p (state c) = ErrorView message attempted total button notice
        /\ button = (Z.of_nat (retryCount (state c)) <? maxRetries p)%Z
        /\ notice = negb button).
Proof.
  split; [reflexivity|].
  assert (Hview : forall v, v = renderError p (state c) ->
            (retryButtonShown v = true ->
             (Z.of_nat (retryCount (state c)) < maxRetries p)%Z)
            /\ (maxRetriesNoticeShown v = true ->
                (maxRetries p <= Z.of_nat (retryCount (state c)))%Z)).
  { intros v ->. unfold renderError.
    destruct (config p); simpl; split; intros H; try discriminate; lia. }
  assert (Hrender : render p (state c) = renderError p (state c)
                    \/ exists u n l, render p (state c) = WebViewSurface u n l
                    \/ render p (state c) = RenderThrows).
  { unfold render. destruct (config p); auto.
    destruct (embedUrl (state c)) as [[|a r]|]; auto.
    destruct (nth_error _ _); [|right; exists "", "", true; auto].
    destruct (JS.truthy _); auto.
    right. eexists _, _, _. left. reflexivity. }
  split; [|split].
  - destruct Hrender as [->|(u & n & l & [->| ->])]; try (simpl; discriminate).
    apply (Hview _ eq_refl).
  - destruct Hrender as [->|(u & n & l & [->| ->])]; try (simpl; discriminate).
    apply (Hview _ eq_refl).
  - intros cfg Hcfg. unfold renderError. rewrite Hcfg.
    eexists _, _, _, _, _. split; [reflexivity|]. split; [reflexivity|].
    rewrite Z.leb_antisym. reflexivity.
Qed.

(** C2. A WebView load error received while a config exists (the WebView is
    rendered).  If [autoRetry] is on and the index is strictly below
    [embedStrategies.length - 1], the handler reports nothing and leaves the
    state as it is, with one retry timer pending; when the timer fires the
    index grows by exactly one and the effect tries the strategy at the new
    index.  Otherwise the handler sets the error
    ['Failed to load {platform} video: {errorMsg}'], clears the loading flag
    and calls [onError] with that error. *)
Theorem handleError_retry_or_stop (p : Props) (c : Component)
  (cfg : SocialMediaConfig) (nativeEvent : ErrorEvent) :
  config p = Some cfg ->
  webViewMounted p (state c) = true ->
  let s := state c in
  let total := List.length (embedStrategies cfg) in
  let errorMsg := JS.or_else (description nativeEvent) "Unknown error" in
  let finalError := "Failed to load " ++ platform cfg ++ " video: " ++ errorMsg in
  let advanced :=
    {| isLoading := isLoading s; error := error s;
       currentStrategyIndex := currentStrategyIndex s + 1;
       retryCount := retryCount s; embedUrl := embedUrl s |} in
  exists strategy,
    nth_error (embedStrategies cfg) (currentStrategyIndex s) = Some strategy
    /\ if autoRetry p && (Z.of_nat (currentStrategyIndex s) <? Z.of_nat total - 1)%Z
       then
         handleError p s nativeEvent c
         = (Some tt, {| state := s; retryTimeoutRef := true |},
            [LogAttempt (name strategy) false (Some errorMsg)])
         /\ handler p RetryTimeout {| state := s; retryTimeoutRef := true |}
            = (Some tt, {| state := advanced; retryTimeoutRef := false |}, [])
         /\ exists next result after rest,
              nth_error (embedStrategies cfg) (currentStrategyIndex s + 1) = Some next
              /\ indexEffect p advanced {| state := advanced; retryTimeoutRef := false |}
                 = (result, after,
                    LogTrying (currentStrategyIndex s + 1) total (name next) :: rest)
       else
         handleError p s nativeEvent c
         = (Some tt,
            {| state := {| isLoading := false; error := Some finalError;
                           currentStrategyIndex := currentStrategyIndex s;
                           retryCount := retryCount s; embedUrl := embedUrl s |};
               retryTimeoutRef := retryTimeoutRef c |},
            LogAttempt (name strategy) false (Some errorMsg) :: reported p finalError).
Proof.
  intros Hcfg Hmounted. cbv zeta.
  destruct (render_webView_inv _ _ Hmounted) as (cfg' & strategy & Hcfg' & Hnth & _ & _).
  rewrite Hcfg in Hcfg'. injection Hcfg' as <-.
  exists strategy. split; [exact Hnth|].
  unfold handleError, hasNextStrategy. rewrite Hcfg, Hnth.
  set (s := state c). set (total := List.length (embedStrategies cfg)).
  destruct (autoRetry p && _) eqn:Hretry.
  - split; [|split].
    + exec. reflexivity.
    + reflexivity.
    + apply andb_true_iff in Hretry as [_ Hlt]. apply Z.ltb_lt in Hlt.
      assert (Hin : currentStrategyIndex s + 1 < total) by lia.
      destruct (nth_error (embedStrategies cfg) (currentStrategyIndex s + 1))
        as [next|] eqn:Hnext.
      2:{ apply nth_error_None in Hnext. fold total in Hnext. lia. }
      unfold indexEffect, tryNextStrategy. rewrite Hcfg.
      cbn [currentStrategyIndex].
      replace (0 <? currentStrategyIndex s + 1)%nat with true
        by (symmetry; apply Nat.ltb_lt; lia).
      fold total.
      replace (total <=? currentStrategyIndex s + 1)%nat with false
        by (symmetry; apply Nat.leb_gt; lia).
      rewrite Hnext. cbn [andb].
      destruct (negb (JS.truthy (getEmbedUrl next (url p)))); exec;
        eexists next, _, _, _; (split; [reflexivity|]); reflexivity.
  - exec. unfold reported. destruct (onError p); reflexivity.
Qed.

(** *** The chain of strategies that cannot build an embed URL *)

Section Chain.
Variables (p : Props) (cfg : SocialMediaConfig).
Hypothesis Hcfg : config p = Some cfg.
Hypothesis Hnone :
  forall strategy, In strategy (embedStrategies cfg) ->
                   getEmbedUrl strategy (url p) = None.

Let total := List.length (embedStrategies cfg).
Let allFailed :=
  "Failed to load " ++ platform cfg ++ " video after trying all strategies".

Lemma tryNextStrategy_last (s : State) (c : Component) :
  currentStrategyIndex s = total ->
  currentStrategyIndex (state c) = total ->
  tryNextStrategy p s c = (Some tt, exhausted cfg c, reported p allFailed).
Proof.
  intros Hs Hc. unfold tryNextStrategy. rewrite Hcfg, Hs. fold total.
  rewrite Nat.leb_refl. exec. unfold reported, exhausted.
  rewrite Hc. destruct (onError p); reflexivity.
Qed.

Lemma tryNextStrategy_skip (s : State) (c : Component) done strategy rest :
  embedStrategies cfg = (done ++ strategy :: rest)%list ->
  currentStrategyIndex s = List.length done ->
  tryNextStrategy p s c
  = (Some tt,
     {| state := {| isLoading := isLoading (state c); error := error (state c);
                    currentStrategyIndex := currentStrategyIndex (state c) + 1;
                    retryCount := retryCount (state c);
                    embedUrl := embedUrl (state c) |};
        retryTimeoutRef := retryTimeoutRef c |},
     [LogTrying (List.length done) total (name strategy);
      LogAttempt (name strategy) false (Some "Failed to generate embed URL")]).
Proof.
  intros Hsplit Hs. unfold tryNextStrategy. rewrite Hcfg, Hs.
  assert (Hlen : total = List.length done + S (List.length rest)).
  { unfold total. rewrite Hsplit, length_app. reflexivity. }
  fold total. replace (total <=? List.length done)%nat with false
    by (symmetry; apply Nat.leb_gt; lia).
  rewrite Hsplit, nth_error_app2, Nat.sub_diag by lia. cbn [nth_error].
  rewrite Hnone by (rewrite Hsplit; apply in_or_app; right; left; reflexivity).
  exec. reflexivity.
Qed.

Lemma flushEffects_chain rest :
  forall done fuel prev c,
    embedStrategies cfg = (done ++ rest)%list ->
    currentStrategyIndex (state c) = List.length done ->
    0 < List.length done ->
    prev <> List.length done ->
    (List.length rest < fuel ->
     flushEffects fuel p prev c
     = Some (Some tt, exhausted cfg c,
             (failedAttempts total (List.length done) rest ++ reported p allFailed)%list))
    /\ (fuel <= List.length rest -> flushEffects fuel p prev c = None).
Proof.
  induction rest as [|strategy rest IH]; intros done fuel prev c Hsplit Hidx Hpos Hprev.
  - assert (Htotal : List.length done = total).
    { unfold total. rewrite Hsplit, app_nil_r. reflexivity. }
    assert (Hne : (currentStrategyIndex (state c) =? prev)%nat = false)
      by (apply Nat.eqb_neq; lia).
    split; intros Hfuel; destruct fuel as [|fuel]; cbn [flushEffects List.length] in *;
      rewrite Hne; try lia; try reflexivity.
    unfold indexEffect. rewrite Hcfg.
    replace (0 <? currentStrategyIndex (state c))%nat with true
      by (symmetry; apply Nat.ltb_lt; lia).
    cbn [andb]. rewrite tryNextStrategy_last by congruence.
    destruct fuel; cbn [flushEffects exhausted state currentStrategyIndex];
      rewrite Hidx, Htotal, Nat.eqb_refl, app_nil_r; reflexivity.
  - assert (Hne : (currentStrategyIndex (state c) =? prev)%nat = false)
      by (apply Nat.eqb_neq; lia).
    assert (Hsplit' : embedStrategies cfg = ((done ++ [strategy]) ++ rest)%list)
      by (rewrite <- app_assoc; exact Hsplit).
    assert (Hlen' : List.length (done ++ [strategy]) = List.length done + 1)
      by (rewrite length_app; reflexivity).
    set (c1 := {| state := {| isLoading := isLoading (state c); error := error (state c);
                              currentStrategyIndex := currentStrategyIndex (state c) + 1;
                              retryCount := retryCount (state c);
                              embedUrl := embedUrl (state c) |};
                  retryTimeoutRef := retryTimeoutRef c |}).
    assert (Hstep : indexEffect p (state c) c
                    = (Some tt, c1,
                       [LogTrying (List.length done) total (name strategy);
                        LogAttempt (name strategy) false
                          (Some "Failed to generate embed URL")])).
    { unfold indexEffect. rewrite Hcfg.
      replace (0 <? currentStrategyIndex (state c))%nat with true
        by (symmetry; apply Nat.ltb_lt; lia).
      cbn [andb]. apply (tryNextStrategy_skip _ _ done strategy rest Hsplit Hidx). }
    split; intros Hfuel; destruct fuel as [|fuel]; cbn [flushEffects List.length] in *;
      rewrite Hne; try lia; try reflexivity; rewrite Hstep.
    + destruct (IH (done ++ [strategy])%list fuel (currentStrategyIndex (state c)) c1)
        as [Hdone _]; try assumption.
      { cbn. lia. } { lia. } { lia. }
      rewrite Hdone by lia. rewrite Hlen', Nat.add_1_r. reflexivity.
    + destruct (IH (done ++ [strategy])%list fuel (currentStrategyIndex (state c)) c1)
        as [_ Hshort]; try assumption.
      { cbn. lia. } { lia. } { lia. }
      rewrite Hshort by lia. reflexivity.
Qed.

Lemma strategiesTried_failedAttempts l :
  forall index tail,
    strategiesTried (failedAttempts total index l ++ reported p tail)%list
    = seq index (List.length l).
Proof.
  induction l as [|strategy l IH]; intros index tail; cbn.
  - unfold reported. destruct (onError p); reflexivity.
  - f_equal. apply IH.
Qed.

End Chain.

(** C5. A config exists and no strategy can build an embed URL for the url.
    Mounting then runs to completion as soon as the effect loop is allowed
    [embedStrategies.length] commits, and not with fewer.  It ends with the
    index at [embedStrategies.length], the error
    ['Failed to load {platform} video after trying all strategies'], the
    loading flag cleared and no embed URL; the log shows the strategies
    tried one after the other, followed by the [onError] call with that
    message: the indices tried are [0, 1, ..., length - 1], each once. *)
Theorem all_strategies_fail (p : Props) (cfg : SocialMediaConfig) (fuel : nat) :
  config p = Some cfg ->
  (forall strategy, In strategy (embedStrategies cfg) ->
                    getEmbedUrl strategy (url p) = None) ->
  let total := List.length (embedStrategies cfg) in
  let allFailed :=
    "Failed to load " ++ platform cfg ++ " video after trying all strategies" in
  let log :=
    (failedAttempts total 0 (embedStrategies cfg) ++ reported p allFailed)%list in
  (total <= fuel ->
   mount fuel p
   = Some (Some tt,
           {| state := {| isLoading := false; error := Some allFailed;
                          currentStrategyIndex := total; retryCount := 0;
                          embedUrl := None |};
              retryTimeoutRef := false |},
           log))
  /\ (fuel < total -> mount fuel p = None)
  /\ strategiesTried log = seq 0 total
  /\ NoDup (strategiesTried log).
Proof.
  intros Hcfg Hnone. cbv zeta.
  pose proof (tryNextStrategy_last p cfg Hcfg) as Hlast.
  pose proof (tryNextStrategy_skip p cfg Hcfg Hnone) as Hskip.
  pose proof (flushEffects_chain p cfg Hcfg Hnone) as Hchain.
  pose proof (strategiesTried_failedAttempts p cfg (embedStrategies cfg) 0) as Htried.
  unfold exhausted in *.
  remember (List.length (embedStrategies cfg)) as total eqn:Htotal.
  remember ("Failed to load " ++ platform cfg ++ " video after trying all strategies")
    as allFailed eqn:Hmsg.
  specialize (Htried allFailed).
  assert (Hmount :
    (total <= fuel ->
     mount fuel p
     = Some (Some tt,
             {| state := {| isLoading := false; error := Some allFailed;
                            currentStrategyIndex := total; retryCount := 0;
                            embedUrl := None |};
                retryTimeoutRef := false |},
             (failedAttempts total 0 (embedStrategies cfg) ++ reported p allFailed)%list))
    /\ (fuel < total -> mount fuel p = None)).
  { unfold mount, thenFlush, mountEffect, bind. rewrite Hcfg.
    destruct (embedStrategies cfg) as [|strategy rest] eqn:Hlist.
    - rewrite (Hlast initialState initial) by (rewrite Htotal; reflexivity).
      unfold indexEffect. cbn [initialState currentStrategyIndex Nat.ltb Nat.leb andb skip ret].
      cbn [initial state initialState isLoading error currentStrategyIndex retryCount
           embedUrl retryTimeoutRef].
      split; intros Hfuel; [|cbn in Htotal; lia].
      destruct fuel; cbn [flushEffects state currentStrategyIndex];
        rewrite Htotal; cbn [List.length Nat.eqb failedAttempts app];
        rewrite !app_nil_r; reflexivity.
    - rewrite (Hskip initialState initial [] strategy rest eq_refl eq_refl).
      unfold indexEffect. cbn [initialState currentStrategyIndex Nat.ltb Nat.leb andb skip ret].
      cbn [initial state initialState isLoading error currentStrategyIndex retryCount
           embedUrl retryTimeoutRef Nat.add].
      destruct (Hchain rest [strategy] fuel 0
                  {| state := {| isLoading := true; error := None;
                                 currentStrategyIndex := 1; retryCount := 0;
                                 embedUrl := None |};
                     retryTimeoutRef := false |})
        as [Hdone Hshort]; try (cbn; lia); try reflexivity.
      cbn [List.length] in Htotal.
      split; intros Hfuel.
      + rewrite Hdone by lia. cbn [state retryCount embedUrl retryTimeoutRef].
        rewrite app_nil_r. reflexivity.
      + rewrite Hshort by lia. reflexivity. }
  destruct Hmount as [Hdone Hshort].
  split; [exact Hdone|]. split; [exact Hshort|]. split; [exact Htried|].
  rewrite Htried. apply seq_NoDup.
Qed.

(** *** No config *)

Section Unsupported.
Variable p : Props.
Hypothesis Hcfg : config p = None.

Lemma handler_unsupported (e : Event) (c : Component) :
  exists c' out,
    handler p e c = (Some tt, c', out)
    /\ embedUrl (state c') = embedUrl (state c)
    /\ Forall harmless out.
Proof.
  destruct e; unfold handler, handleLoadEnd, handleError, handleHttpError;
    rewrite ?Hcfg; try destruct (retryTimeoutRef c); exec;
    try destruct (onLoad p); try destruct (onPlaybackStart p); exec;
    eexists _, _; (split; [reflexivity|]); (split; [reflexivity|]);
    repeat first [apply Forall_nil | apply Forall_cons]; unfold harmless; auto.
Qed.

Lemma flushEffects_unsupported (fuel prev : nat) (c : Component) :
  (0 < fuel -> flushEffects fuel p prev c = Some (Some tt, c, []))
  /\ (forall x, flushEffects fuel p prev c = Some x -> x = (Some tt, c, [])).
Proof.
  assert (Heff : indexEffect p (state c) c = (Some tt, c, [])).
  { unfold indexEffect. rewrite Hcfg, andb_false_r. reflexivity. }
  assert (Hnext : forall n,
            flushEffects n p (currentStrategyIndex (state c)) c = Some (Some tt, c, [])).
  { intros n. destruct n; cbn [flushEffects]; rewrite Nat.eqb_refl; reflexivity. }
  destruct fuel as [|fuel]; cbn [flushEffects];
    destruct (currentStrategyIndex (state c) =? prev)%nat eqn:Heq.
  - split; [reflexivity|congruence].
  - split; [lia|discriminate].
  - split; [reflexivity|congruence].
  - rewrite Heff, Hnext. cbn [app]. split; [reflexivity|congruence].
Qed.

Lemma step_unsupported (fuel : nat) (e : Event) (c : Component) :
  (0 < fuel -> exists c' out, step fuel p e c = Some (Some tt, c', out))
  /\ (forall r c' out,
       step fuel p e c = Some (r, c', out) ->
       r = Some tt /\ embedUrl (state c') = embedUrl (state c) /\ Forall harmless out).
Proof.
  destruct (handler_unsupported e c) as (c1 & o1 & Hh & Hurl & Hout).
  unfold step, thenFlush. rewrite Hh.
  destruct (flushEffects_unsupported fuel (currentStrategyIndex (state c)) c1)
    as [Hpos Hsome].
  split.
  - intros Hfuel. rewrite (Hpos Hfuel). eauto.
  - intros r c' out. destruct (flushEffects _ _ _ _) as [x|] eqn:Hx; [|discriminate].
    rewrite (Hsome x eq_refl). intros [= <- <- <-].
    rewrite app_nil_r. auto.
Qed.

Lemma run_unsupported (fuel : nat) (es : list Event) :
  forall c,
    (0 < fuel -> exists c' out, run fuel p es c = Some (Some tt, c', out))
    /\ (forall r c' out,
         run fuel p es c = Some (r, c', out) ->
         r = Some tt /\ embedUrl (state c') = embedUrl (state c) /\ Forall harmless out).
Proof.
  induction es as [|e es IH]; intros c; cbn [run].
  - split; [eauto|]. intros r c' out [= <- <- <-]. auto.
  - destruct (step_unsupported fuel e c) as [Htotal Hstep]. split.
    + intros Hfuel. destruct (Htotal Hfuel) as (c1 & o1 & ->).
      destruct (proj1 (IH c1) Hfuel) as (c2 & o2 & ->). eauto.
    + intros r c' out.
      destruct (step fuel p e c) as [[[[[]|] c1] o1]|] eqn:Hs; try discriminate.
      * destruct (Hstep _ _ _ eq_refl) as (_ & Hurl1 & Hout1).
        destruct (run fuel p es c1) as [[[r2 c2] o2]|] eqn:Hr; [|discriminate].
        intros [= <- <- <-].
        destruct (proj2 (IH c1) _ _ _ Hr) as (-> & Hurl2 & Hout2).
        split; [reflexivity|]. split; [congruence|]. apply Forall_app; auto.
      * destruct (Hstep _ _ _ eq_refl) as (Habs & _). discriminate.
Qed.

Lemma harmless_log (out : list Output) :
  Forall harmless out ->
  strategiesTried out = [] /\ forall message, ~ In (CallOnError message) out.
Proof.
  induction 1 as [|o out [-> | ->] _ [IHt IHe]]; cbn; (split; [auto|]);
    intros message []; try discriminate; eapply IHe; eauto.
Qed.

End Unsupported.

(** C8. No config for the url.  Mounting sets the error and calls [onError]
    once, with exactly ['Unsupported social media platform']; whatever the
    state, the component renders the unsupported-platform view; and along
    every sequence of events that follows, no strategy is tried, no embed
    URL is stored (so the WebView is never rendered) and [onError] is not
    called again.  Every such sequence runs to its end without throwing. *)
Theorem unsupported_platform (p : Props) :
  config p = None ->
  let unsupported := "Unsupported social media platform" in
  let mounted :=
    {| state := {| isLoading := true; error := Some unsupported;
                   currentStrategyIndex := 0; retryCount := 0;
                   embedUrl := None |};
       retryTimeoutRef := false |} in
  (forall fuel, mount fuel p = Some (Some tt, mounted, reported p unsupported))
  /\ (forall s, render p s = UnsupportedPlatformView
               /\ webViewMounted p s = false)
  /\ (forall fuel es, 0 < fuel ->
      exists c out,
        run fuel p es mounted = Some (Some tt, c, out)
        /\ embedUrl (state c) = None
        /\ strategiesTried out = []
        /\ forall message, ~ In (CallOnError message) out).
Proof.
  intros Hcfg. cbv zeta. split; [|split].
  - intros fuel. unfold mount, thenFlush, mountEffect, indexEffect, bind.
    rewrite Hcfg. exec. unfold reported.
    destruct (onError p); destruct fuel; reflexivity.
  - intros s. unfold webViewMounted, render, renderError. rewrite Hcfg. auto.
  - intros fuel es Hfuel.
    destruct (run_unsupported p Hcfg fuel es
                {| state := {| isLoading := true;
                               error := Some "Unsupported social media platform";
                               currentStrategyIndex := 0; retryCount := 0;
                               embedUrl := None |};
                   retryTimeoutRef := false |}) as [Htotal Hinv].
    destruct (Htotal Hfuel) as (c & out & Hrun).
    destruct (Hinv _ _ _ Hrun) as (_ & Hurl & Hout).
    exists c, out. split; [exact Hrun|]. split; [exact Hurl|].
    apply harmless_log. exact Hout.
Qed.

End Facts.

(** The first of two strategies failed to load: the second one is next. *)
Lemma handleError_retry_or_stop_witness :
  exists strategy,
    nth_error (embedStrategies Samples.twitterConfig) 0 = Some strategy
    /\ handleError (U := Samples.twitterUtils)
         (defaultProps Samples.tweet)
         {| isLoading := true; error := None; currentStrategyIndex := 0;
            retryCount := 0; embedUrl := Some "https://platform.twitter.com/embed/Tweet.html?url=https://twitter.com/user/status/1" |}
         {| description := Some "net::ERR_FAILED" |}
         {| state :=
              {| isLoading := true; error := None; currentStrategyIndex := 0;
                 retryCount := 0; embedUrl := Some "https://platform.twitter.com/embed/Tweet.html?url=https://twitter.com/user/status/1" |};
            retryTimeoutRef := false |}
       = (Some tt,
          {| state :=
               {| isLoading := true; error := None; currentStrategyIndex := 0;
                  retryCount := 0; embedUrl := Some "https://platform.twitter.com/embed/Tweet.html?url=https://twitter.com/user/status/1" |};
             retryTimeoutRef := true |},
          [LogAttempt (name strategy) false (Some "net::ERR_FAILED")]).
Proof.
  destruct (handleError_retry_or_stop (U := Samples.twitterUtils)
              (defaultProps Samples.tweet)
              {| state :=
                   {| isLoading := true; error := None; currentStrategyIndex := 0;
                      retryCount := 0; embedUrl := Some "https://platform.twitter.com/embed/Tweet.html?url=https://twitter.com/user/status/1" |};
                 retryTimeoutRef := false |}
              Samples.twitterConfig
              {| description := Some "net::ERR_FAILED" |}
              eq_refl eq_refl) as (strategy & Hnth & Hrun & _).
  exists strategy. split; [exact Hnth | exact Hrun].
Defined.

(** Three strategies, none of which can build an embed URL. *)
Lemma all_strategies_fail_witness :
  mount (U := Samples.barrenUtils) 3 (defaultProps "https://www.tiktok.com/@user/video/1")
  = Some (Some tt,
          {| state := {| isLoading := false;
                         error := Some "Failed to load tiktok video after trying all strategies";
                         currentStrategyIndex := 3; retryCount := 0;
                         embedUrl := None |};
             retryTimeoutRef := false |},
          [ LogTrying 0 3 "embed";
            LogAttempt "embed" false (Some "Failed to generate embed URL");
            LogTrying 1 3 "oembed";
            LogAttempt "oembed" false (Some "Failed to generate embed URL");
            LogTrying 2 3 "direct";
            LogAttempt "direct" false (Some "Failed to generate embed URL") ]).
Proof.
  refine (proj1 (all_strategies_fail (U := Samples.barrenUtils)
                   (defaultProps "https://www.tiktok.com/@user/video/1")
                   Samples.barrenConfig 3 eq_refl _) (le_n 3)).
  intros strategy [<-|[<-|[<-|[]]]]; reflexivity.
Defined.

(** A url of no supported platform. *)
Lemma unsupported_platform_witness :
  mount (U := Samples.noSocialMedia) 1 (defaultProps "https://example.com/clip")
  = Some (Some tt,
          {| state := {| isLoading := true;
                         error := Some "Unsupported social media platform";
                         currentStrategyIndex := 0; retryCount := 0;
                         embedUrl := None |};
             retryTimeoutRef := false |},
          [])
  /\ render (U := Samples.noSocialMedia) (defaultProps "https://example.com/clip") initialState
     = UnsupportedPlatformView.
Proof.
  destruct (unsupported_platform (U := Samples.noSocialMedia)
              (defaultProps "https://example.com/clip") eq_refl) as (Hmount & Hrender & _).
  split; [apply Hmount | apply Hrender].
Defined.

End SocialMediaPlayerFacts.

(* ------------------------------------------------------------------ *)
(** ** UniversalVideoPlayer *)

Module UniversalVideoPlayerFacts.
Import Handler Utils UniversalVideoPlayer.

(** Unfolds the handler combinators and the state setters. *)
Ltac exec :=
  cbv [bind ret emit modify throw call skip onState setIsLoading
       setPlaybackError setRetryCount scheduleRetry clearLoadTimeout
       startLoadTimeout retryCallback onLoadStart onLoadEnd];
  cbn [state loadTimeoutRef retryTimers isLoading playbackError retryCount
       app fst snd andb].

Section Facts.
Context {U : SocialMediaUtils} {D : VideoSourceDetector} {M : MembershipProvider}.

(** C9. The url given to the native player is the url of the props exactly
    when the detected type is direct, stream, hls or dash and the url is not
    empty after trimming; in every other case it is the fixed sample url.
    Either way it is not empty, also after trimming. *)
Theorem safeUrl_native_or_sample (p : Props) :
  safeUrl p
  = (if oneOf (type (sourceInfo p)) nativeTypes && negb (JS.trim (url p) =? "")
     then url p
     else "https://commondatastorage.googleapis.com/gtv-videos-bucket/sample/BigBuckBunny.mp4")
  /\ JS.trim (safeUrl p) <> ""
  /\ safeUrl p <> "".
Proof.
  assert (Hnative : shouldUseNativePlayer p = oneOf (type (sourceInfo p)) nativeTypes).
  { unfold shouldUseNativePlayer, oneOf, nativeTypes. cbn [existsb].
    rewrite orb_false_r, !orb_assoc. reflexivity. }
  assert (Heq : safeUrl p
                = if oneOf (type (sourceInfo p)) nativeTypes
                     && negb (JS.trim (url p) =? "")
                  then url p else sampleUrl).
  { unfold safeUrl. rewrite Hnative.
    destruct (oneOf _ _); [|reflexivity]. cbn [andb].
    destruct (url p =? "") eqn:Hempty; [|reflexivity].
    apply String.eqb_eq in Hempty. rewrite Hempty. reflexivity. }
  split; [exact Heq|].
  assert (Htrim : JS.trim (safeUrl p) <> "").
  { rewrite Heq. destruct (oneOf _ _ && _) eqn:Hc.
    - apply andb_true_iff in Hc as [_ Hc]. apply negb_true_iff in Hc.
      apply String.eqb_neq. exact Hc.
    - vm_compute. discriminate. }
  split; [exact Htrim|].
  intros Hempty. apply Htrim. rewrite Hempty. reflexivity.
Qed.

(** C10. The HTTP error handler.  It always clears the load timeout.  With a
    status of at least 500 and [retryCount < maxRetries] it starts one retry
    timer and changes no state; with any other status of at least 400, so
    with every status in 400-499 whatever [retryCount] is, it sets the
    error ['HTTP Error {statusCode}: {url}'] and calls [onError] with it at
    once, starting no timer; below 400 no state cell changes, no timer is
    started and nothing is reported.  So a retry is started if and only if
    the status is at least 500 and [retryCount < maxRetries]. *)
Theorem onHttpError_retry_iff (p : Props) (c : Component) (nativeEvent : HttpErrorEvent) :
  let s := state c in
  let code := statusCode nativeEvent in
  let httpError :=
    "HTTP Error " ++ JS.Number_toString code ++ ": " ++ nativeUrl nativeEvent in
  let budget := (Z.of_nat (retryCount s) <? maxRetries p)%Z in
  onHttpError p s nativeEvent c
  = (if (500 <=? code)%Z && budget then
       (Some tt,
        {| state := s; loadTimeoutRef := None; retryTimers := S (retryTimers c) |},
        [])
     else if (400 <=? code)%Z then
       (Some tt,
        {| state := {| isLoading := isLoading s; playbackError := Some httpError;
                       retryCount := retryCount s |};
           loadTimeoutRef := None; retryTimers := retryTimers c |},
        reported p httpError)
     else
       (Some tt,
        {| state := s; loadTimeoutRef := None; retryTimers := retryTimers c |},
        []))
  /\ (retryTimers (snd (fst (onHttpError p s nativeEvent c))) = S (retryTimers c)
      <-> (500 <= code)%Z /\ (Z.of_nat (retryCount s) < maxRetries p)%Z)
  /\ (retryTimers (snd (fst (onHttpError p s nativeEvent c))) = retryTimers c
      \/ retryTimers (snd (fst (onHttpError p s nativeEvent c))) = S (retryTimers c)).
Proof.
  cbv zeta.
  assert (Heq : onHttpError p (state c) nativeEvent c
    = (if (500 <=? statusCode nativeEvent)%Z
          && (Z.of_nat (retryCount (state c)) <? maxRetries p)%Z then
         (Some tt,
          {| state := state c; loadTimeoutRef := None;
             retryTimers := S (retryTimers c) |}, [])
       else if (400 <=? statusCode nativeEvent)%Z then
         (Some tt,
          {| state := {| isLoading := isLoading (state c);
                         playbackError :=
                           Some ("HTTP Error " ++ JS.Number_toString (statusCode nativeEvent)
                                 ++ ": " ++ nativeUrl nativeEvent);
                         retryCount := retryCount (state c) |};
             loadTimeoutRef := None; retryTimers := retryTimers c |},
          reported p ("HTTP Error " ++ JS.Number_toString (statusCode nativeEvent)
                      ++ ": " ++ nativeUrl nativeEvent))
       else
         (Some tt,
          {| state := state c; loadTimeoutRef := None;
             retryTimers := retryTimers c |}, []))).
  { unfold onHttpError, reported.
    destruct (400 <=? statusCode nativeEvent)%Z eqn:H400;
      destruct (500 <=? statusCode nativeEvent)%Z eqn:H500;
      destruct (Z.of_nat (retryCount (state c)) <? maxRetries p)%Z eqn:Hb;
      try (apply Z.leb_le in H500; apply Z.leb_gt in H400; lia);
      exec; try destruct (onError p); reflexivity. }
  split; [exact Heq|]. rewrite Heq.
  destruct (500 <=? statusCode nativeEvent)%Z eqn:H500;
    destruct (Z.of_nat (retryCount (state c)) <? maxRetries p)%Z eqn:Hb;
    destruct (400 <=? statusCode nativeEvent)%Z eqn:H400;
    cbn [andb fst snd retryTimers];
    rewrite ?Z.leb_le, ?Z.leb_gt, ?Z.ltb_lt, ?Z.ltb_ge in *;
    (split; [split; [intros; lia | intros; lia] | auto]).
Qed.

(** C7. When [canPlayVideo] says the video cannot be played, the eligibility
    effect sets [playbackError] to the reason, or to
    ['Cannot play this video'] when there is none, calls [onError] with that
    message, and the component then renders the error view, with that
    message, instead of a player. *)
Theorem ineligible_video_shows_error (p : Props) (c : Component) :
  canPlay (playbackEligibility p) = false ->
  let message := JS.or_else (reason (playbackEligibility p)) "Cannot play this video" in
  exists c' hint,
    eligibilityEffect p c
    = (Some tt, c',
       (reported p message
        ++ (if requiresAgeVerification (sourceInfo p) && onAgeVerificationRequired p
            then [CallOnAgeVerificationRequired] else []))%list)
    /\ playbackError (state c') = Some message
    /\ isLoading (state c') = isLoading (state c)
    /\ retryCount (state c') = retryCount (state c)
    /\ render p (state c') = ErrorView (Some message) (Some hint)
    /\ strategyOf (render p (state c')) = ShowError.
Proof.
  intros Hcan. cbv zeta.
  set (message := JS.or_else (reason (playbackEligibility p)) "Cannot play this video").
  assert (Htruthy : JS.truthy (Some message) = true)
    by (apply JSFacts.truthy_or_else; discriminate).
  exists {| state := {| isLoading := isLoading (state c);
                        playbackError := Some message;
                        retryCount := retryCount (state c) |};
            loadTimeoutRef := loadTimeoutRef c; retryTimers := retryTimers c |}.
  exists (if tier =? "free"
          then "Upgrade to Basic or Premium for full access"
          else "Please check your membership status").
  split; [|repeat split].
  - unfold eligibilityEffect, reported. rewrite Hcan. fold message.
    destruct (requiresAgeVerification (sourceInfo p));
      destruct (onAgeVerificationRequired p); destruct (onError p);
      exec; reflexivity.
  - unfold render, renderError. cbn [state playbackError].
    rewrite Htruthy, Hcan. reflexivity.
  - unfold render, renderError. cbn [state playbackError].
    rewrite Htruthy. reflexivity.
Qed.

(** C1, as the component does it.  While a playback error is stored the
    error view is rendered whatever the url; otherwise the component renders
    exactly the strategy the url selects: the social media player, else the
    WebView, else the native player, else the error view. *)
Theorem render_selects_strategy (p : Props) (s : State) :
  strategyOf (render p s)
  = if JS.truthy (playbackError s) then ShowError else selectedStrategy p.
Proof.
  unfold render, selectedStrategy, renderError, renderWebViewPlayer,
    renderNativePlayer.
  destruct (JS.truthy (playbackError s)); [reflexivity|].
  unfold shouldUseNativePlayerRender, shouldUseWebView, useSocialMediaPlayer,
    oneOf, webViewTypes, nativeTypes.
  cbn [existsb]. rewrite !orb_false_r, !orb_assoc.
  destruct (getSocialMediaConfig (url p)); cbn [andb negb].
  - destruct (_ || (type (sourceInfo p) =? "tiktok")); cbn [negb andb];
      [reflexivity|].
    destruct (_ || (type (sourceInfo p) =? "dropbox")); cbn [negb andb];
      [reflexivity|].
    destruct (_ || (type (sourceInfo p) =? "dash")); reflexivity.
  - destruct (_ || (type (sourceInfo p) =? "dropbox")); cbn [negb andb];
      [reflexivity|].
    destruct (_ || (type (sourceInfo p) =? "dash")); reflexivity.
Qed.

(** *** The retry counter *)

(** A retry timer is started only by a load error or an HTTP error, and only
    when the [retryCount] the handler sees is below [maxRetries]. *)
Lemma retry_started_below_maxRetries (p : Props) (e : Event) (c : Component) :
  retryTimers (snd (fst (handler p e c))) = S (retryTimers c) ->
  (Z.of_nat (retryCount (state c)) < maxRetries p)%Z
  /\ ((exists ev, e = LoadError ev) \/ (exists ev, e = HttpError ev)).
Proof.
  destruct e as [| |ev|ev| |]; unfold handler, onWebViewError, onHttpError,
    loadTimeoutCallback, handleLoadTimeout.
  - exec. intros Habs; exfalso; lia.
  - exec. intros Habs; exfalso; lia.
  - destruct (Z.of_nat (retryCount (state c)) <? maxRetries p)%Z eqn:Hb.
    + apply Z.ltb_lt in Hb. eauto.
    + destruct (type (sourceInfo p) =? "youtube");
        [|destruct (type (sourceInfo p) =? "adult")];
        destruct (onError p); exec; intros Habs; exfalso; lia.
  - destruct (Z.of_nat (retryCount (state c)) <? maxRetries p)%Z eqn:Hb.
    + apply Z.ltb_lt in Hb. eauto.
    + destruct (400 <=? statusCode ev)%Z; destruct (onError p); exec; intros Habs; exfalso; lia.
  - destruct (loadTimeoutRef c) as [s|]; [|exec; intros Habs; exfalso; lia].
    destruct (Z.of_nat (retryCount s) <? maxRetries p)%Z; destruct (onError p);
      exec; intros Habs; exfalso; lia.
  - exec. intros Habs; exfalso; destruct (retryTimers c); cbn in Habs; lia.
Qed.

(** Once the [retryCount] a handler sees has reached [maxRetries], a load
    error, an HTTP error of status 400 or more and a load timeout each store
    a playback error and report it, and start no retry. *)
Lemma failure_at_maxRetries_reports (p : Props) (e : Event) (c : Component) :
  (maxRetries p <= Z.of_nat (retryCount (state c)))%Z ->
  match e with
  | LoadError _ => True
  | HttpError ev => (400 <= statusCode ev)%Z
  | LoadTimeout => loadTimeoutRef c = Some (state c)
  | _ => False
  end ->
  exists message,
    playbackError (state (snd (fst (handler p e c)))) = Some message
    /\ snd (handler p e c) = reported p message
    /\ retryCount (state (snd (fst (handler p e c)))) = retryCount (state c)
    /\ retryTimers (snd (fst (handler p e c))) = retryTimers c.
Proof.
  intros Hmax He. apply Z.ltb_ge in Hmax.
  destruct e as [| |ev|ev| |]; try contradiction;
    unfold handler, onWebViewError, onHttpError, loadTimeoutCallback,
      handleLoadTimeout, reported.
  - rewrite Hmax.
    destruct (type (sourceInfo p) =? "youtube");
      [|destruct (type (sourceInfo p) =? "adult")];
      destruct (onError p); exec; eexists; repeat split; reflexivity.
  - apply Z.leb_le in He. rewrite He, Hmax.
    destruct (onError p); exec; eexists; repeat split; reflexivity.
  - rewrite He, Hmax.
    destruct (onError p); exec; eexists; repeat split; reflexivity.
Qed.

(** *** YouTube embed URLs *)

Lemma urlencode_flag (b : bool) : JS.urlencode (flag b) = flag b.
Proof. destruct b; reflexivity. Qed.

Lemma getYouTubeEmbedUrl_eq (p : Props) (videoId : string) :
  getYouTubeEmbedUrl p videoId
  = "https://www.youtube.com/embed/" ++ videoId ++ "?autoplay=" ++ flag (autoPlay p)
    ++ "&playsinline=1&rel=0&modestbranding=1&fs=1&iv_load_policy=3&enablejsapi=1&controls=1&showinfo=0&cc_load_policy=0&disablekb=0&widget_referrer=https%3A%2F%2Frork.app".
Proof. unfold getYouTubeEmbedUrl. destruct (autoPlay p); reflexivity. Qed.

Lemma getYouTubeNoEmbedUrl_eq (p : Props) (videoId : string) :
  getYouTubeNoEmbedUrl p videoId
  = "https://www.youtube-nocookie.com/embed/" ++ videoId ++ "?autoplay="
    ++ flag (autoPlay p)
    ++ "&playsinline=1&rel=0&modestbranding=1&controls=1&fs=1&enablejsapi=0".
Proof. unfold getYouTubeNoEmbedUrl. destruct (autoPlay p); reflexivity. Qed.

Lemma youtube_urls_distinct (p : Props) (videoId : string) :
  getYouTubeEmbedUrl p videoId <> getYouTubeWebPlayerUrl p videoId
  /\ getYouTubeWebPlayerUrl p videoId <> getYouTubeNoEmbedUrl p videoId
  /\ getYouTubeEmbedUrl p videoId <> getYouTubeNoEmbedUrl p videoId.
Proof.
  rewrite getYouTubeEmbedUrl_eq, getYouTubeNoEmbedUrl_eq.
  unfold getYouTubeWebPlayerUrl.
  repeat split; cbn [String.append]; intros Heq; discriminate Heq.
Qed.

Section YouTube.
Variables (p : Props) (id : string).
Hypothesis Htype : type (sourceInfo p) = "youtube".
Hypothesis Hid : videoId (sourceInfo p) = Some id.
Hypothesis Hnonempty : id <> "".

Lemma embedUrl_youtube (s : State) :
  embedUrl p s
  = nth (retryCount s)
      [getYouTubeEmbedUrl p id; getYouTubeWebPlayerUrl p id]
      (getYouTubeNoEmbedUrl p id).
Proof.
  unfold embedUrl. rewrite Htype, Hid, String.eqb_refl.
  destruct id as [|a r]; [congruence|].
  destruct (retryCount s) as [|[|[|n]]]; reflexivity.
Qed.

Lemma render_youtube (s : State) :
  JS.truthy (playbackError s) = false ->
  render p s = WebViewPlayer (embedUrl p s).
Proof.
  intros Herr.
  assert (Hsocial : useSocialMediaPlayer p = false).
  { unfold useSocialMediaPlayer. rewrite Htype.
    destruct (getSocialMediaConfig (url p)); reflexivity. }
  assert (Hweb : shouldUseWebView p = true).
  { unfold shouldUseWebView. rewrite Hsocial, Htype.
    destruct (requiresWebView (sourceInfo p)); reflexivity. }
  unfold render. rewrite Herr, Hsocial, Hweb. reflexivity.
Qed.

(** The component after [n] rounds of a load error and its retry. *)
Lemma run_retryRounds (nativeEvent : ErrorEvent) (n : nat) :
  forall c,
    JS.truthy (playbackError (state c)) = false ->
    (Z.of_nat (retryCount (state c) + n) <= maxRetries p)%Z ->
    exists c',
      run p (retryRounds nativeEvent n) c = Some (c', [])
      /\ retryCount (state c') = retryCount (state c) + n
      /\ JS.truthy (playbackError (state c')) = false
      /\ retryTimers c' = retryTimers c.
Proof.
  induction n as [|n IH]; intros c Herr Hmax; cbn [retryRounds run].
  - exists c. rewrite Nat.add_0_r. auto.
  - assert (Hbudget : (Z.of_nat (retryCount (state c)) <? maxRetries p)%Z = true)
      by (apply Z.ltb_lt; lia).
    unfold step at 1. unfold enabled. rewrite (render_youtube _ Herr).
    unfold handler, onWebViewError. rewrite Htype, Hbudget.
    change ("youtube" =? "youtube") with true. exec.
    unfold step at 1. unfold enabled, handler. exec.
    cbn [Nat.ltb Nat.leb Nat.pred].
    destruct (IH {| state := {| isLoading := true; playbackError := None;
                                retryCount := retryCount (state c) + 1 |};
                    loadTimeoutRef := None; retryTimers := retryTimers c |})
      as (c' & Hrun & Hcount & Herr' & Htimers).
    { reflexivity. } { cbn [state retryCount]. lia. }
    rewrite Hrun. exists c'. cbn [state retryCount retryTimers] in *.
    repeat split; auto; lia.
Qed.

End YouTube.

(** C4, as the component does it.  For a YouTube source with a video id the
    WebView is given the entry of the list [standard embed; watch page] at
    position [retryCount], and the nocookie embed at every position past the
    end of that list; the three URLs differ.  After [n <= maxRetries] load
    errors, each followed by its retry, the counter is [n] and that URL is
    rendered; the load error received at [retryCount = maxRetries] stores
    the final error and reports it.  So the nocookie embed has been tried
    before the final error exactly when [maxRetries >= 2], and every retry
    past the second one loads it again. *)
Theorem youtube_embedUrl_by_retryCount (p : Props) (id : string) :
  type (sourceInfo p) = "youtube" ->
  videoId (sourceInfo p) = Some id ->
  id <> "" ->
  let generators := [getYouTubeEmbedUrl p id; getYouTubeWebPlayerUrl p id] in
  let last := getYouTubeNoEmbedUrl p id in
  (forall s, embedUrl p s = nth (retryCount s) generators last)
  /\ (getYouTubeEmbedUrl p id <> getYouTubeWebPlayerUrl p id
      /\ getYouTubeWebPlayerUrl p id <> last
      /\ getYouTubeEmbedUrl p id <> last)
  /\ (forall n, nth n generators last = last <-> 2 <= n)
  /\ (forall nativeEvent n c,
        retryCount (state c) = 0 ->
        JS.truthy (playbackError (state c)) = false ->
        (Z.of_nat n <= maxRetries p)%Z ->
        exists c',
          run p (retryRounds nativeEvent n) c = Some (c', [])
          /\ retryCount (state c') = n
          /\ render p (state c') = WebViewPlayer (nth n generators last)
          /\ (Z.of_nat n = maxRetries p ->
              exists c'',
                step p (LoadError nativeEvent) c'
                = Some (c'', reported p (youtubeLoadError p))
                /\ playbackError (state c'') = Some (youtubeLoadError p)
                /\ retryCount (state c'') = n
                /\ retryTimers c'' = retryTimers c)).
Proof.
  intros Htype Hid Hnonempty. cbv zeta.
  pose proof (youtube_urls_distinct p id) as (Hew & Hwn & Hen).
  split; [|split; [|split]].
  - apply embedUrl_youtube; assumption.
  - auto.
  - intros [|[|[|n]]]; cbn [nth]; split; intros H; try lia; try reflexivity;
      exfalso; congruence.
  - intros nativeEvent n c Hzero Herr Hmax.
    destruct (run_retryRounds p Htype nativeEvent n c Herr) as
      (c' & Hrun & Hcount & Herr' & Htimers); [lia|].
    rewrite Hzero in Hcount. cbn [Nat.add] in Hcount.
    exists c'. split; [exact Hrun|]. split; [exact Hcount|].
    split.
    + rewrite (render_youtube p Htype _ Herr'), (embedUrl_youtube p id Htype Hid Hnonempty).
      rewrite Hcount. reflexivity.
    + intros Hlast.
      assert (Hbudget : (Z.of_nat (retryCount (state c')) <? maxRetries p)%Z = false)
        by (apply Z.ltb_ge; lia).
      unfold step, enabled. rewrite (render_youtube p Htype _ Herr').
      unfold handler, onWebViewError, reported. rewrite Htype, Hbudget.
      change ("youtube" =? "youtube") with true.
      destruct (onError p); exec; eexists; (split; [reflexivity|]);
        cbn [state playbackError retryCount retryTimers]; auto.
Qed.

End Facts.

(** *** Runs on the sample environments *)

(** A tweet opened by a member of the free tier, who may not play it. *)
Lemma ineligible_video_shows_error_witness :
  exists c' hint,
    eligibilityEffect (D := Samples.twitterDetector) (M := Samples.freeTier)
      {| url := Samples.tweet; onError := true; onPlaybackStart := false;
         onPlaybackEnd := false; autoPlay := false;
         onAgeVerificationRequired := false; loadTimeout := 30000;
         maxRetries := 3 |} initial
    = (Some tt, c', [CallOnError "Social media videos require a paid membership"])
    /\ playbackError (state c') = Some "Social media videos require a paid membership"
    /\ render (U := Samples.twitterUtils) (D := Samples.twitterDetector)
         (M := Samples.freeTier)
         {| url := Samples.tweet; onError := true; onPlaybackStart := false;
            onPlaybackEnd := false; autoPlay := false;
            onAgeVerificationRequired := false; loadTimeout := 30000;
            maxRetries := 3 |} (state c')
       = ErrorView (Some "Social media videos require a paid membership") (Some hint).
Proof.
  destruct (ineligible_video_shows_error
              (U := Samples.twitterUtils) (D := Samples.twitterDetector)
              (M := Samples.freeTier)
              {| url := Samples.tweet; onError := true; onPlaybackStart := false;
                 onPlaybackEnd := false; autoPlay := false;
                 onAgeVerificationRequired := false; loadTimeout := 30000;
                 maxRetries := 3 |} initial eq_refl)
    as (c' & hint & Heffect & Herror & _ & _ & Hrender & _).
  exists c', hint. split; [exact Heffect|]. split; [exact Herror | exact Hrender].
Defined.

(** C1 as stated fails once a playback error is stored: a tweet with a
    config selects the social media player, but for a member of the free
    tier the eligibility effect has stored an error on mount, and the
    component renders the error view. *)
Lemma error_view_for_social_media_url :
  selectedStrategy (U := Samples.twitterUtils) (D := Samples.twitterDetector)
    (defaultProps Samples.tweet)
  = UseSocialMediaPlayer
  /\ playbackError
       (state (fst (mount (D := Samples.twitterDetector) (M := Samples.freeTier)
                      (defaultProps Samples.tweet))))
     = Some "Social media videos require a paid membership"
  /\ strategyOf
       (render (U := Samples.twitterUtils) (D := Samples.twitterDetector)
          (M := Samples.freeTier) (defaultProps Samples.tweet)
          (state (fst (mount (D := Samples.twitterDetector) (M := Samples.freeTier)
                         (defaultProps Samples.tweet)))))
     = ShowError
  /\ strategyOf
       (render (U := Samples.twitterUtils) (D := Samples.twitterDetector)
          (M := Samples.freeTier) (defaultProps Samples.tweet)
          (state (fst (mount (D := Samples.twitterDetector) (M := Samples.freeTier)
                         (defaultProps Samples.tweet)))))
     <> selectedStrategy (U := Samples.twitterUtils) (D := Samples.twitterDetector)
          (defaultProps Samples.tweet).
Proof.
  repeat split; try (vm_compute; reflexivity). vm_compute. discriminate.
Qed.

(** A YouTube video whose every load fails, with the default props: after
    three retries the counter is 3 and the nocookie embed is loaded. *)
Lemma youtube_embedUrl_by_retryCount_witness :
  exists c,
    run (U := Samples.noSocialMedia) (D := Samples.youtubeDetector)
      (M := Samples.premiumTier) (defaultProps Samples.youtubeVideo)
      (retryRounds {| description := Some "net::ERR_FAILED" |} 3) initial
    = Some (c, [])
    /\ retryCount (state c) = 3
    /\ render (U := Samples.noSocialMedia) (D := Samples.youtubeDetector)
         (M := Samples.premiumTier) (defaultProps Samples.youtubeVideo) (state c)
       = WebViewPlayer "https://www.youtube-nocookie.com/embed/dQw4w9WgXcQ?autoplay=0&playsinline=1&rel=0&modestbranding=1&controls=1&fs=1&enablejsapi=0".
Proof.
  destruct (youtube_embedUrl_by_retryCount
              (U := Samples.noSocialMedia) (D := Samples.youtubeDetector)
              (M := Samples.premiumTier) (defaultProps Samples.youtubeVideo)
              "dQw4w9WgXcQ" eq_refl eq_refl
              (fun H => match H in _ = s return
                                match s with EmptyString => False | String _ _ => True end
                        with eq_refl => I end))
    as (_ & _ & _ & Hrun).
  destruct (Hrun {| description := Some "net::ERR_FAILED" |} 3 initial eq_refl eq_refl)
    as (c & Hc & Hcount & Hrender & _).
  { cbn. lia. }
  exists c. split; [exact Hc|]. split; [exact Hcount | exact Hrender].
Defined.

(** C4 as stated fails in two ways.  With the default [maxRetries = 3] the
    third automatic retry does not advance to another generator: it loads
    the nocookie embed that the second retry loaded.  With [maxRetries = 1]
    the final error is reported after the standard embed and the watch page
    only: the nocookie embed is never loaded. *)
Lemma youtube_generators_not_one_per_retry :
  (exists c2 c3,
     run (U := Samples.noSocialMedia) (D := Samples.youtubeDetector)
       (M := Samples.premiumTier) (defaultProps Samples.youtubeVideo)
       (retryRounds {| description := None |} 2) initial = Some (c2, [])
     /\ run (U := Samples.noSocialMedia) (D := Samples.youtubeDetector)
          (M := Samples.premiumTier) (defaultProps Samples.youtubeVideo)
          (retryRounds {| description := None |} 3) initial = Some (c3, [])
     /\ retryCount (state c2) = 2 /\ retryCount (state c3) = 3
     /\ render (U := Samples.noSocialMedia) (D := Samples.youtubeDetector)
          (M := Samples.premiumTier) (defaultProps Samples.youtubeVideo) (state c3)
        = render (U := Samples.noSocialMedia) (D := Samples.youtubeDetector)
            (M := Samples.premiumTier) (defaultProps Samples.youtubeVideo) (state c2))
  /\ (exists c message,
        run (U := Samples.noSocialMedia) (D := Samples.youtubeDetector)
          (M := Samples.premiumTier)
          {| url := Samples.youtubeVideo; onError := true; onPlaybackStart := false;
             onPlaybackEnd := false; autoPlay := false;
             onAgeVerificationRequired := false; loadTimeout := 30000;
             maxRetries := 1 |}
          [LoadError {| description := None |}; RetryTimer;
           LoadError {| description := None |}] initial
        = Some (c, [CallOnError message])
        /\ playbackError (state c) = Some message
        /\ retryCount (state c) = 1
        /\ embedUrl (D := Samples.youtubeDetector)
             (defaultProps Samples.youtubeVideo)
             {| isLoading := true; playbackError := None; retryCount := 0 |}
           = "https://www.youtube.com/embed/dQw4w9WgXcQ?autoplay=0&playsinline=1&rel=0&modestbranding=1&fs=1&iv_load_policy=3&enablejsapi=1&controls=1&showinfo=0&cc_load_policy=0&disablekb=0&widget_referrer=https%3A%2F%2Frork.app"
        /\ embedUrl (D := Samples.youtubeDetector)
             (defaultProps Samples.youtubeVideo)
             {| isLoading := true; playbackError := None; retryCount := 1 |}
           = "https://www.youtube.com/watch?v=dQw4w9WgXcQ&autoplay=0").
Proof.
  split.
  - exists {| state := {| isLoading := true; playbackError := None; retryCount := 2 |};
              loadTimeoutRef := None; retryTimers := 0 |},
           {| state := {| isLoading := true; playbackError := None; retryCount := 3 |};
              loadTimeoutRef := None; retryTimers := 0 |}.
    repeat split; vm_compute; reflexivity.
  - pose (p1 := {| url := Samples.youtubeVideo; onError := true;
                   onPlaybackStart := false; onPlaybackEnd := false;
                   autoPlay := false; onAgeVerificationRequired := false;
                   loadTimeout := 30000; maxRetries := 1 |}).
    exists {| state := {| isLoading := true;
                          playbackError := Some (youtubeLoadError p1);
                          retryCount := 1 |};
              loadTimeoutRef := None; retryTimers := 0 |},
           (youtubeLoadError p1).
    repeat split; vm_compute; reflexivity.
Qed.

(** C3 fails on the component.  With the default [maxRetries = 3], two load
    errors received at [retryCount = 2] before the retry timer of the first
    one has fired each pass the guard [retryCount < maxRetries] and each
    start a timer; when both timers have fired the counter is 4. *)
Theorem retryCount_exceeds_maxRetries :
  exists c,
    run (U := Samples.noSocialMedia) (D := Samples.youtubeDetector)
      (M := Samples.premiumTier) (defaultProps Samples.youtubeVideo)
      [ LoadError {| description := None |}; RetryTimer;
        LoadError {| description := None |}; RetryTimer;
        LoadError {| description := None |};
        LoadError {| description := None |};
        RetryTimer; RetryTimer ]
      (fst (mount (D := Samples.youtubeDetector) (M := Samples.premiumTier)
              (defaultProps Samples.youtubeVideo)))
    = Some (c, [])
    /\ retryCount (state c) = 4
    /\ maxRetries (defaultProps Samples.youtubeVideo) = 3%Z
    /\ playbackError (state c) = None.
Proof.
  exists {| state := {| isLoading := true; playbackError := None; retryCount := 4 |};
            loadTimeoutRef := None; retryTimers := 0 |}.
  repeat split; vm_compute; reflexivity.
Qed.

End UniversalVideoPlayerFacts.

(* ------------------------------------------------------------------ *)
(** ** SocialMediaPlayer: further properties *)

Module SocialMediaPlayerExtra.
Import Handler Utils SocialMediaPlayer SocialMediaPlayerFacts.

(** Closes the effect loop after a handler that left the index alone. *)
Ltac settle p :=
  match goal with
  | |- context [flushEffects ?f p ?i ?c1] =>
      change i with (currentStrategyIndex (state c1));
      replace (flushEffects f p (currentStrategyIndex (state c1)) c1)
        with (Some (Some tt, c1, @nil Output))
        by (destruct f; cbn [flushEffects]; rewrite Nat.eqb_refl; reflexivity)
  end.

Section Strategies.
Context {U : SocialMediaUtils}.
Variables (p : Props) (cfg : SocialMediaConfig).
Hypothesis Hcfg : config p = Some cfg.

Let total := List.length (embedStrategies cfg).

(** One call of [tryNextStrategy] on a strategy that builds no URL. *)
Lemma tryNextStrategy_fails (s : State) (c : Component) done strategy rest :
  embedStrategies cfg = (done ++ strategy :: rest)%list ->
  currentStrategyIndex s = List.length done ->
  JS.truthy (getEmbedUrl strategy (url p)) = false ->
  tryNextStrategy p s c
  = (Some tt,
     {| state := {| isLoading := isLoading (state c); error := error (state c);
                    currentStrategyIndex := currentStrategyIndex (state c) + 1;
                    retryCount := retryCount (state c);
                    embedUrl := embedUrl (state c) |};
        retryTimeoutRef := retryTimeoutRef c |},
     [LogTrying (List.length done) total (name strategy);
      LogAttempt (name strategy) false (Some "Failed to generate embed URL")]).
Proof.
  intros Hsplit Hs Hfalsy. unfold tryNextStrategy. rewrite Hcfg, Hs.
  assert (Hlen : total = List.length done + S (List.length rest)).
  { unfold total. rewrite Hsplit, length_app. reflexivity. }
  fold total. replace (total <=? List.length done)%nat with false
    by (symmetry; apply Nat.leb_gt; lia).
  rewrite Hsplit, nth_error_app2, Nat.sub_diag by lia. cbn [nth_error].
  rewrite Hfalsy. exec. reflexivity.
Qed.

(** One call of [tryNextStrategy] on a strategy that builds a URL. *)
Lemma tryNextStrategy_works (s : State) (c : Component) done strategy rest a r :
  embedStrategies cfg = (done ++ strategy :: rest)%list ->
  currentStrategyIndex s = List.length done ->
  getEmbedUrl strategy (url p) = Some (String a r) ->
  tryNextStrategy p s c
  = (Some tt,
     {| state := {| isLoading := true; error := None;
                    currentStrategyIndex := currentStrategyIndex (state c);
                    retryCount := retryCount (state c);
                    embedUrl := Some (String a r) |};
        retryTimeoutRef := retryTimeoutRef c |},
     [LogTrying (List.length done) total (name strategy)]).
Proof.
  intros Hsplit Hs Hurl. unfold tryNextStrategy. rewrite Hcfg, Hs.
  assert (Hlen : total = List.length done + S (List.length rest)).
  { unfold total. rewrite Hsplit, length_app. reflexivity. }
  fold total. replace (total <=? List.length done)%nat with false
    by (symmetry; apply Nat.leb_gt; lia).
  rewrite Hsplit, nth_error_app2, Nat.sub_diag by lia. cbn [nth_error].
  rewrite Hurl. exec. reflexivity.
Qed.

Lemma indexEffect_positive (c : Component) :
  0 < currentStrategyIndex (state c) ->
  indexEffect p (state c) c = tryNextStrategy p (state c) c.
Proof.
  intros Hpos. unfold indexEffect. rewrite Hcfg.
  replace (0 <? currentStrategyIndex (state c))%nat with true
    by (symmetry; apply Nat.ltb_lt; lia).
  reflexivity.
Qed.

Lemma flushEffects_settled (fuel : nat) (c : Component) :
  flushEffects fuel p (currentStrategyIndex (state c)) c = Some (Some tt, c, []).
Proof. destruct fuel; cbn [flushEffects]; rewrite Nat.eqb_refl; reflexivity. Qed.

(** The effect loop over strategies that build no URL, up to the first one
    that does. *)
Lemma flushEffects_to_first_working failing :
  forall done strategy rest a r fuel prev c,
    embedStrategies cfg = (done ++ failing ++ strategy :: rest)%list ->
    (forall s, In s failing -> JS.truthy (getEmbedUrl s (url p)) = false) ->
    getEmbedUrl strategy (url p) = Some (String a r) ->
    currentStrategyIndex (state c) = List.length done ->
    0 < List.length done ->
    prev <> List.length done ->
    List.length failing < fuel ->
    flushEffects fuel p prev c
    = Some (Some tt,
            {| state := {| isLoading := true; error := None;
                           currentStrategyIndex :=
                             List.length done + List.length failing;
                           retryCount := retryCount (state c);
                           embedUrl := Some (String a r) |};
               retryTimeoutRef := retryTimeoutRef c |},
            (failedAttempts total (List.length done) failing
             ++ [LogTrying (List.length done + List.length failing) total
                   (name strategy)])%list).
Proof.
  induction failing as [|f failing IH];
    intros done strategy rest a r fuel prev c Hsplit Hfail Hurl Hidx Hpos Hprev Hfuel;
    (destruct fuel as [|fuel]; [cbn in Hfuel; lia|]);
    cbn [flushEffects];
    (replace (currentStrategyIndex (state c) =? prev)%nat with false
       by (symmetry; apply Nat.eqb_neq; lia));
    rewrite indexEffect_positive by lia.
  - cbn [app] in Hsplit.
    rewrite (tryNextStrategy_works _ _ done strategy rest a r Hsplit Hidx Hurl).
    match goal with
    | |- context [flushEffects fuel p ?i ?c1] =>
        change i with (currentStrategyIndex (state c1))
    end.
    rewrite flushEffects_settled. cbn [List.length failedAttempts app].
    rewrite Hidx, Nat.add_0_r. reflexivity.
  - cbn [app] in Hsplit.
    rewrite (tryNextStrategy_fails _ _ done f (failing ++ strategy :: rest)%list
               Hsplit Hidx) by (apply Hfail; left; reflexivity).
    rewrite (IH (done ++ [f])%list strategy rest a r fuel).
    + cbn [state retryCount retryTimeoutRef List.length failedAttempts app].
      rewrite length_app. cbn [List.length].
      replace (List.length done + 1 + List.length failing)
        with (List.length done + S (List.length failing)) by lia.
      replace (List.length done + 1) with (S (List.length done)) by lia.
      reflexivity.
    + rewrite <- app_assoc. exact Hsplit.
    + intros s Hin. apply Hfail. right. exact Hin.
    + exact Hurl.
    + cbn [state currentStrategyIndex]. rewrite length_app. cbn. lia.
    + rewrite length_app. cbn. lia.
    + rewrite length_app. cbn. lia.
    + cbn in Hfuel. lia.
Qed.

(** The effect loop over strategies that build no URL, to the end of the
    list. *)
Lemma flushEffects_exhausts rest :
  forall done fuel prev c,
    embedStrategies cfg = (done ++ rest)%list ->
    (forall s, In s rest -> JS.truthy (getEmbedUrl s (url p)) = false) ->
    currentStrategyIndex (state c) = List.length done ->
    0 < List.length done ->
    prev <> List.length done ->
    List.length rest < fuel ->
    flushEffects fuel p prev c
    = Some (Some tt, exhausted cfg c,
            (failedAttempts total (List.length done) rest
             ++ reported p ("Failed to load " ++ platform cfg
                            ++ " video after trying all strategies"))%list).
Proof.
  induction rest as [|f rest IH];
    intros done fuel prev c Hsplit Hfail Hidx Hpos Hprev Hfuel;
    (destruct fuel as [|fuel]; [cbn in Hfuel; lia|]);
    cbn [flushEffects];
    (replace (currentStrategyIndex (state c) =? prev)%nat with false
       by (symmetry; apply Nat.eqb_neq; lia));
    rewrite indexEffect_positive by lia.
  - rewrite app_nil_r in Hsplit.
    assert (Hlast : tryNextStrategy p (state c) c
                    = (Some tt, exhausted cfg c,
                       reported p ("Failed to load " ++ platform cfg
                                   ++ " video after trying all strategies"))).
    { unfold tryNextStrategy. rewrite Hcfg, Hidx, Hsplit, Nat.leb_refl.
      unfold reported, exhausted. rewrite Hsplit.
      destruct (onError p); exec; rewrite Hidx; reflexivity. }
    rewrite Hlast.
    replace (currentStrategyIndex (state c))
      with (currentStrategyIndex (state (exhausted cfg c)))
      by (cbn; rewrite Hsplit; auto).
    rewrite flushEffects_settled, app_nil_r. reflexivity.
  - rewrite (tryNextStrategy_fails _ _ done f rest Hsplit Hidx)
      by (apply Hfail; left; reflexivity).
    rewrite (IH (done ++ [f])%list fuel).
    + cbn [failedAttempts app]. rewrite length_app. cbn [List.length].
      replace (List.length done + 1) with (S (List.length done)) by lia.
      reflexivity.
    + rewrite <- app_assoc. exact Hsplit.
    + intros s Hin. apply Hfail. right. exact Hin.
    + cbn [state currentStrategyIndex]. rewrite length_app. cbn. lia.
    + rewrite length_app. cbn. lia.
    + rewrite length_app. cbn. lia.
    + cbn in Hfuel. lia.
Qed.

End Strategies.

Section Extra.
Context {U : SocialMediaUtils}.

Lemma mount_unfold (fuel : nat) (p : Props) (cfg : SocialMediaConfig) :
  config p = Some cfg ->
  mount fuel p
  = match tryNextStrategy p initialState initial with
    | (Some _, c1, o1) =>
        match flushEffects fuel p 0 c1 with
        | Some (r, c2, o2) => Some (r, c2, (o1 ++ o2)%list)
        | None => None
        end
    | (None, c1, o1) => Some (None, c1, o1)
    end.
Proof.
  intros Hcfg. unfold mount, thenFlush, mountEffect, bind. rewrite Hcfg.
  destruct (tryNextStrategy p initialState initial) as [[[[]|] c1] o1];
    [|reflexivity].
  unfold indexEffect. cbn [initialState currentStrategyIndex Nat.ltb Nat.leb andb].
  cbn [skip ret initial state]. rewrite app_nil_r. reflexivity.
Qed.

Lemma strategiesTried_upto (total : nat) (l : list EmbedStrategy) :
  forall k strategyName,
    strategiesTried
      (failedAttempts total k l ++ [LogTrying (k + List.length l) total strategyName])%list
    = seq k (S (List.length l)).
Proof.
  induction l as [|f l IH]; intros k strategyName; cbn [failedAttempts List.length app].
  - rewrite Nat.add_0_r. reflexivity.
  - cbn [strategiesTried]. rewrite <- Nat.add_succ_comm, IH. reflexivity.
Qed.

(** X1. Mounting settles on the first strategy that builds an embed URL:
    the strategies before it, which build none (null or the empty string),
    are tried in order and skipped, the ones after it are not tried, and
    the WebView is rendered with that URL and that strategy, loading. *)
Theorem mount_first_working_strategy (p : Props) (cfg : SocialMediaConfig)
  (failing : list EmbedStrategy) (strategy : EmbedStrategy)
  (rest : list EmbedStrategy) (a : ascii) (r : string) (fuel : nat) :
  config p = Some cfg ->
  embedStrategies cfg = (failing ++ strategy :: rest)%list ->
  (forall s, In s failing -> JS.truthy (getEmbedUrl s (url p)) = false) ->
  getEmbedUrl strategy (url p) = Some (String a r) ->
  List.length failing <= fuel ->
  let total := List.length (embedStrategies cfg) in
  let settled :=
    {| isLoading := true; error := None;
       currentStrategyIndex := List.length failing; retryCount := 0;
       embedUrl := Some (String a r) |} in
  mount fuel p
  = Some (Some tt, {| state := settled; retryTimeoutRef := false |},
          (failedAttempts total 0 failing
           ++ [LogTrying (List.length failing) total (name strategy)])%list)
  /\ strategiesTried
       (failedAttempts total 0 failing
        ++ [LogTrying (List.length failing) total (name strategy)])%list
     = seq 0 (S (List.length failing))
  /\ render p settled = WebViewSurface (String a r) (name strategy) true.
Proof.
  intros Hcfg Hsplit Hfail Hurl Hfuel. cbv zeta. split; [|split].
  - rewrite (mount_unfold fuel p cfg Hcfg).
    destruct failing as [|f failing].
    + rewrite (tryNextStrategy_works p cfg Hcfg initialState initial []
                 strategy rest a r Hsplit eq_refl Hurl).
      cbn [initial state initialState currentStrategyIndex retryCount retryTimeoutRef].
      destruct fuel; reflexivity.
    + rewrite (tryNextStrategy_fails p cfg Hcfg initialState initial []
                 f (failing ++ strategy :: rest)%list Hsplit eq_refl)
        by (apply Hfail; left; reflexivity).
      cbn [initial state initialState isLoading error currentStrategyIndex
           retryCount embedUrl retryTimeoutRef Nat.add].
      rewrite (flushEffects_to_first_working p cfg Hcfg failing [f] strategy rest a r fuel 0);
        try (cbn; lia); try reflexivity; try assumption;
        try (intros s Hin; apply Hfail; right; exact Hin);
        try (cbn in Hfuel; lia).
  - apply (strategiesTried_upto _ failing 0).
  - unfold render. rewrite Hcfg. cbn [embedUrl currentStrategyIndex].
    rewrite Hsplit, nth_error_app2, Nat.sub_diag by lia. reflexivity.
Qed.

(** X2. When every strategy builds no embed URL (null or the empty string),
    mounting gives every strategy up and the component renders the error
    view with the 'after trying all strategies' message; its counter of
    attempts reads one more than the number of strategies. *)
Theorem exhausted_error_view (p : Props) (cfg : SocialMediaConfig) (fuel : nat) :
  config p = Some cfg ->
  (forall s, In s (embedStrategies cfg) ->
             JS.truthy (getEmbedUrl s (url p)) = false) ->
  List.length (embedStrategies cfg) <= fuel ->
  let total := List.length (embedStrategies cfg) in
  let allFailed :=
    "Failed to load " ++ platform cfg ++ " video after trying all strategies" in
  mount fuel p
  = Some (Some tt, exhausted cfg initial,
          (failedAttempts total 0 (embedStrategies cfg) ++ reported p allFailed)%list)
  /\ render p (state (exhausted cfg initial))
     = ErrorView (Some allFailed) (total + 1) total
         (0 <? maxRetries p)%Z (maxRetries p <=? 0)%Z.
Proof.
  intros Hcfg Hfail Hfuel. cbv zeta. split.
  - rewrite (mount_unfold fuel p cfg Hcfg).
    destruct (embedStrategies cfg) as [|f rest] eqn:Hlist.
    + assert (Hlast : tryNextStrategy p initialState initial
                      = (Some tt, exhausted cfg initial,
                         reported p ("Failed to load " ++ platform cfg
                                     ++ " video after trying all strategies"))).
      { unfold tryNextStrategy. rewrite Hcfg, Hlist.
        cbn [List.length initialState currentStrategyIndex Nat.leb].
        unfold reported, exhausted. rewrite Hlist.
        destruct (onError p); exec; reflexivity. }
      rewrite Hlast.
      replace 0 with (currentStrategyIndex (state (exhausted cfg initial)))
        at 1 by (cbn; rewrite Hlist; reflexivity).
      rewrite flushEffects_settled, app_nil_r. reflexivity.
    + rewrite (tryNextStrategy_fails p cfg Hcfg initialState initial [] f rest)
        by (rewrite ?Hlist; try reflexivity; apply Hfail; left; reflexivity).
      cbn [initial state initialState isLoading error currentStrategyIndex
           retryCount embedUrl retryTimeoutRef Nat.add].
      rewrite (flushEffects_exhausts p cfg Hcfg rest [f] fuel 0);
        try (cbn; lia); try (rewrite Hlist; reflexivity);
        try (intros s Hin; apply Hfail; right; exact Hin);
        try (cbn in Hfuel; lia).
  - unfold render, renderError. rewrite Hcfg. reflexivity.
Qed.

(** [n] runs of the index effect over strategies that build no URL. *)
Lemma indexEffects_skip (p : Props) (cfg : SocialMediaConfig) failing :
  config p = Some cfg ->
  forall done rest c,
    embedStrategies cfg = (done ++ failing ++ rest)%list ->
    (forall s, In s failing -> JS.truthy (getEmbedUrl s (url p)) = false) ->
    currentStrategyIndex (state c) = List.length done ->
    0 < List.length done ->
    indexEffects (List.length failing) p c
    = (Some tt,
       {| state := {| isLoading := isLoading (state c); error := error (state c);
                      currentStrategyIndex := List.length done + List.length failing;
                      retryCount := retryCount (state c);
                      embedUrl := embedUrl (state c) |};
          retryTimeoutRef := retryTimeoutRef c |},
       failedAttempts (List.length (embedStrategies cfg)) (List.length done) failing).
Proof.
  intros Hcfg. induction failing as [|f failing IH];
    intros done rest c Hsplit Hfail Hidx Hpos; cbn [indexEffects List.length].
  - rewrite Nat.add_0_r, <- Hidx. destruct c as [[] ?]; reflexivity.
  - rewrite (indexEffect_positive p cfg Hcfg) by lia.
    rewrite (tryNextStrategy_fails p cfg Hcfg _ _ done f (failing ++ rest)%list
               Hsplit Hidx) by (apply Hfail; left; reflexivity).
    rewrite (IH (done ++ [f])%list rest).
    + cbn [state isLoading error retryCount embedUrl retryTimeoutRef
           failedAttempts app].
      rewrite length_app. cbn [List.length].
      replace (List.length done + 1 + List.length failing)
        with (List.length done + S (List.length failing)) by lia.
      replace (List.length done + 1) with (S (List.length done)) by lia.
      reflexivity.
    + rewrite <- app_assoc. exact Hsplit.
    + intros s Hin. apply Hfail. right. exact Hin.
    + cbn [state currentStrategyIndex]. rewrite length_app. cbn. lia.
    + rewrite length_app. cbn. lia.
Qed.

(** X3. The first strategy builds an embed URL, its load fails, and none of
    the later strategies builds a URL.  The load error starts the retry
    timer; when it fires the index effect skips the later strategies one
    commit after the other, and the commit that puts the index past the last
    strategy still holds the embed URL of the first one: rendering that
    state throws, because [render] reads [strategy.headers] of a strategy
    that does not exist.  It would throw as well once the
    'after trying all strategies' error were stored, since the read comes
    before the error is looked at. *)
Theorem render_throws_after_failed_fallback (p : Props) (cfg : SocialMediaConfig)
  (strategy : EmbedStrategy) (rest : list EmbedStrategy) (a : ascii) (r : string)
  (nativeEvent : ErrorEvent) (fuel : nat) :
  config p = Some cfg ->
  embedStrategies cfg = strategy :: rest ->
  rest <> [] ->
  getEmbedUrl strategy (url p) = Some (String a r) ->
  (forall s, In s rest -> JS.truthy (getEmbedUrl s (url p)) = false) ->
  autoRetry p = true ->
  let total := List.length (embedStrategies cfg) in
  let loaded k :=
    {| state := {| isLoading := true; error := None; currentStrategyIndex := k;
                   retryCount := 0; embedUrl := Some (String a r) |};
       retryTimeoutRef := false |} in
  mount fuel p = Some (Some tt, loaded 0, [LogTrying 0 total (name strategy)])
  /\ webViewMounted p (state (loaded 0)) = true
  /\ (exists c1 out,
        handler p (LoadError nativeEvent) (loaded 0) = (Some tt, c1, out)
        /\ handler p RetryTimeout c1 = (Some tt, loaded 1, []))
  /\ indexEffects (List.length rest) p (loaded 1)
     = (Some tt, loaded total, failedAttempts total 1 rest)
  /\ render p (state (loaded total)) = RenderThrows
  /\ render p (state (exhausted cfg (loaded total))) = RenderThrows.
Proof.
  intros Hcfg Hlist Hrest Hurl Hfail Hauto. cbv zeta.
  destruct rest as [|f rest]; [congruence|]. clear Hrest.
  assert (Hpast : nth_error (embedStrategies cfg) (List.length (embedStrategies cfg))
                  = None) by (apply nth_error_None; lia).
  split; [|split; [|split; [|split; [|split]]]].
  - rewrite (mount_unfold fuel p cfg Hcfg).
    rewrite (tryNextStrategy_works p cfg Hcfg initialState initial []
               strategy (f :: rest) a r Hlist eq_refl Hurl).
    cbn [initial state initialState currentStrategyIndex retryCount retryTimeoutRef].
    destruct fuel; reflexivity.
  - unfold webViewMounted, render. rewrite Hcfg, Hlist. reflexivity.
  - eexists _, _. unfold handler, handleError, hasNextStrategy.
    rewrite Hcfg, Hlist, Hauto. cbn [state currentStrategyIndex nth_error List.length].
    replace (Z.of_nat 0 <? Z.of_nat (S (S (List.length rest))) - 1)%Z with true
      by (symmetry; apply Z.ltb_lt; lia).
    exec. split; reflexivity.
  - rewrite (indexEffects_skip p cfg (f :: rest) Hcfg [strategy] []);
      try (cbn; lia); try assumption; try reflexivity.
    + rewrite Hlist. reflexivity.
    + rewrite app_nil_r. exact Hlist.
  - unfold render. rewrite Hcfg. cbn [state embedUrl currentStrategyIndex].
    rewrite Hpast. reflexivity.
  - unfold render. rewrite Hcfg. cbn [exhausted state embedUrl currentStrategyIndex].
    rewrite Hpast. reflexivity.
Qed.

(** X4. A manual retry tries no strategy.  [handleManualRetry] puts the index
    back to 0, and the index effect skips index 0, so [getEmbedUrl] is not
    called and the stored embed URL stays: when one is stored, the WebView
    is rendered again with that same URL, under the name of the first
    strategy. *)
Theorem manual_retry_tries_nothing (p : Props) (c : Component) (fuel : nat) :
  let retried :=
    {| isLoading := isLoading (state c); error := None;
       currentStrategyIndex := 0; retryCount := retryCount (state c) + 1;
       embedUrl := embedUrl (state c) |} in
  step (S fuel) p ManualRetry c
  = Some (Some tt, {| state := retried; retryTimeoutRef := retryTimeoutRef c |}, [])
  /\ (forall cfg first a r,
        config p = Some cfg ->
        nth_error (embedStrategies cfg) 0 = Some first ->
        embedUrl (state c) = Some (String a r) ->
        render p retried = WebViewSurface (String a r) (name first) (isLoading (state c))).
Proof.
  cbv zeta. split.
  - unfold step, thenFlush, handler. exec. cbn [flushEffects state currentStrategyIndex].
    destruct (0 =? currentStrategyIndex (state c))%nat; [reflexivity|].
    unfold indexEffect. cbn [currentStrategyIndex Nat.ltb Nat.leb andb skip ret].
    destruct fuel; reflexivity.
  - intros cfg first a r Hcfg Hfirst Hurl. unfold render.
    rewrite Hcfg. cbn [embedUrl currentStrategyIndex error]. rewrite Hurl, Hfirst.
    reflexivity.
Qed.

(** X5. An HTTP error received while the WebView is rendered.  Below status
    400 the handler does nothing.  From 400 on it decides as the load error
    handler does: with [autoRetry] and a later strategy left it starts the
    retry timer and changes no state; otherwise it sets the error
    ['HTTP Error {statusCode}'], clears the loading flag and calls
    [onError] with that error. *)
Theorem handleHttpError_retry_or_stop (p : Props) (c : Component)
  (cfg : SocialMediaConfig) (nativeEvent : HttpErrorEvent) :
  config p = Some cfg ->
  webViewMounted p (state c) = true ->
  let s := state c in
  let code := JS.Number_toString (statusCode nativeEvent) in
  exists strategy,
    nth_error (embedStrategies cfg) (currentStrategyIndex s) = Some strategy
    /\ handleHttpError p s nativeEvent c
       = (if (statusCode nativeEvent <? 400)%Z then (Some tt, c, [])
          else if autoRetry p
                  && (Z.of_nat (currentStrategyIndex s)
                      <? Z.of_nat (List.length (embedStrategies cfg)) - 1)%Z
          then (Some tt, {| state := s; retryTimeoutRef := true |},
                [LogAttempt (name strategy) false (Some ("HTTP " ++ code))])
          else (Some tt,
                {| state := {| isLoading := false;
                               error := Some ("HTTP Error " ++ code);
                               currentStrategyIndex := currentStrategyIndex s;
                               retryCount := retryCount s;
                               embedUrl := embedUrl s |};
                   retryTimeoutRef := retryTimeoutRef c |},
                LogAttempt (name strategy) false (Some ("HTTP " ++ code))
                :: reported p ("HTTP Error " ++ code))).
Proof.
  intros Hcfg Hmounted. cbv zeta.
  destruct (render_webView_inv _ _ Hmounted) as (cfg' & strategy & Hcfg' & Hnth & _ & _).
  rewrite Hcfg in Hcfg'. injection Hcfg' as <-.
  exists strategy. split; [exact Hnth|].
  unfold handleHttpError, hasNextStrategy. rewrite Hcfg, Hnth.
  rewrite (Z.ltb_antisym 400 (statusCode nativeEvent)).
  destruct (400 <=? statusCode nativeEvent)%Z; cbn [negb].
  - destruct (autoRetry p && _); exec; [reflexivity|].
    unfold reported. destruct (onError p); reflexivity.
  - destruct c; reflexivity.
Qed.

(** *** Every strategy builds a URL *)

Section AllWork.
Variables (p : Props) (cfg : SocialMediaConfig).
Hypothesis Hcfg : config p = Some cfg.
Hypothesis Hwork :
  forall s, In s (embedStrategies cfg) -> JS.truthy (getEmbedUrl s (url p)) = true.

Lemma strategy_at (c : Component) :
  currentStrategyIndex (state c) < List.length (embedStrategies cfg) ->
  exists strategy a r,
    nth_error (embedStrategies cfg) (currentStrategyIndex (state c)) = Some strategy
    /\ getEmbedUrl strategy (url p) = Some (String a r).
Proof.
  intros Hlt.
  destruct (nth_error (embedStrategies cfg) (currentStrategyIndex (state c)))
    as [strategy|] eqn:Hnth; [|apply nth_error_None in Hnth; lia].
  pose proof (Hwork _ (nth_error_In _ _ Hnth)) as Htruthy.
  destruct (getEmbedUrl strategy (url p)) as [[|a r]|] eqn:Hbuilt; try discriminate.
  exists strategy, a, r. split; [reflexivity | exact Hbuilt].
Qed.

Lemma step_inBounds (fuel : nat) (e : Event) (c : Component) :
  inBounds cfg c ->
  exists c' out,
    step (S fuel) p e c = Some (Some tt, c', out) /\ inBounds cfg c'.
Proof.
  intros (Hlt & Href & Hurl).
  destruct (strategy_at c Hlt) as (strategy & a & r & Hnth & Hbuilt).
  assert (Hkeep : forall l, inBounds cfg
            {| state := {| isLoading := l; error := error (state c);
                           currentStrategyIndex := currentStrategyIndex (state c);
                           retryCount := retryCount (state c);
                           embedUrl := embedUrl (state c) |};
               retryTimeoutRef := retryTimeoutRef c |})
    by (intros l; repeat split; assumption).
  assert (Hstop : forall m, inBounds cfg
            {| state := {| isLoading := false; error := m;
                           currentStrategyIndex := currentStrategyIndex (state c);
                           retryCount := retryCount (state c);
                           embedUrl := embedUrl (state c) |};
               retryTimeoutRef := retryTimeoutRef c |})
    by (intros m; repeat split; assumption).
  assert (Hsame : inBounds cfg c) by (repeat split; assumption).
  destruct e as [| |ev|ev| |]; unfold step, thenFlush, handler.
  - exec. settle p. eexists _, _. split; [reflexivity|apply Hkeep].
  - unfold handleLoadEnd. rewrite Hcfg, Hnth.
    destruct (onLoad p); destruct (onPlaybackStart p); exec; settle p;
      (eexists _, _; split; [reflexivity|apply Hkeep]).
  - unfold handleError. rewrite Hcfg, Hnth.
    destruct (autoRetry p && hasNextStrategy cfg (state c)) eqn:Hretry.
    + exec. settle p. eexists _, _. split; [reflexivity|].
      apply andb_true_iff in Hretry as [_ Hnext].
      unfold hasNextStrategy in Hnext. apply Z.ltb_lt in Hnext.
      repeat split; cbn [state retryTimeoutRef]; try assumption. intros _. lia.
    + destruct (onError p); exec; settle p;
        (eexists _, _; split; [reflexivity|apply Hstop]).
  - unfold handleHttpError. rewrite Hcfg, Hnth.
    destruct (400 <=? statusCode ev)%Z.
    + destruct (autoRetry p && hasNextStrategy cfg (state c)) eqn:Hretry.
      * exec. settle p. eexists _, _. split; [reflexivity|].
        apply andb_true_iff in Hretry as [_ Hnext].
        unfold hasNextStrategy in Hnext. apply Z.ltb_lt in Hnext.
        repeat split; cbn [state retryTimeoutRef]; try assumption. intros _. lia.
      * destruct (onError p); exec; settle p;
          (eexists _, _; split; [reflexivity|apply Hstop]).
    + exec. settle p. eexists _, _. split; [reflexivity|exact Hsame].
  - exec. cbn [flushEffects state currentStrategyIndex].
    eexists _, _. split.
    + destruct (0 =? currentStrategyIndex (state c))%nat; [reflexivity|].
      unfold indexEffect. cbn [currentStrategyIndex Nat.ltb Nat.leb andb skip ret].
      destruct fuel; reflexivity.
    + repeat split; cbn [state retryTimeoutRef currentStrategyIndex embedUrl];
        try assumption; try lia. intros Hpending. specialize (Href Hpending). lia.
  - destruct (retryTimeoutRef c) eqn:Hpending.
    + specialize (Href eq_refl).
      set (c1 := {| state := {| isLoading := isLoading (state c);
                                error := error (state c);
                                currentStrategyIndex := currentStrategyIndex (state c) + 1;
                                retryCount := retryCount (state c);
                                embedUrl := embedUrl (state c) |};
                    retryTimeoutRef := false |}).
      destruct (strategy_at c1 Href) as (next & a' & r' & Hnext & Hbuilt').
      assert (Htry : indexEffect p (state c1) c1
                     = (Some tt,
                        {| state := {| isLoading := true; error := None;
                                       currentStrategyIndex :=
                                         currentStrategyIndex (state c) + 1;
                                       retryCount := retryCount (state c);
                                       embedUrl := Some (String a' r') |};
                           retryTimeoutRef := false |},
                        [LogTrying (currentStrategyIndex (state c) + 1)
                           (List.length (embedStrategies cfg)) (name next)])).
      { rewrite (indexEffect_positive p cfg Hcfg) by (cbn; lia).
        unfold tryNextStrategy. rewrite Hcfg.
        cbn [c1 state currentStrategyIndex] in *.
        replace (List.length (embedStrategies cfg) <=? currentStrategyIndex (state c) + 1)%nat
          with false by (symmetry; apply Nat.leb_gt; lia).
        rewrite Hnext, Hbuilt'. exec. reflexivity. }
      exec. fold c1. cbn [flushEffects].
      replace (currentStrategyIndex (state c1) =? currentStrategyIndex (state c))%nat
        with false by (symmetry; apply Nat.eqb_neq; cbn; lia).
      rewrite Htry. settle p.
      eexists _, _. split; [reflexivity|].
      repeat split; cbn [state retryTimeoutRef currentStrategyIndex embedUrl];
        try assumption; try reflexivity. discriminate.
    + exec. settle p. eexists _, _. split; [reflexivity|].
      repeat split; try assumption. rewrite Hpending. discriminate.
Qed.

Lemma run_inBounds (fuel : nat) (es : list Event) :
  forall c,
    inBounds cfg c ->
    exists c' out,
      run (S fuel) p es c = Some (Some tt, c', out) /\ inBounds cfg c'.
Proof.
  induction es as [|e es IH]; intros c Hin; cbn [run].
  - eauto.
  - destruct (step_inBounds fuel e c Hin) as (c1 & o1 & -> & Hin1).
    destruct (IH c1 Hin1) as (c2 & o2 & -> & Hin2). eauto.
Qed.

Lemma render_inBounds (c : Component) :
  inBounds cfg c -> render p (state c) <> RenderThrows.
Proof.
  intros (Hlt & _ & Hurl).
  destruct (strategy_at c Hlt) as (strategy & a & r & Hnth & _).
  unfold render, renderError. rewrite Hcfg, Hnth.
  destruct (embedUrl (state c)) as [[|b u]|]; try discriminate.
  destruct (JS.truthy (error (state c))); discriminate.
Qed.

End AllWork.

(** X6. When the list of strategies is not empty and every strategy builds
    an embed URL, the index never leaves the list: after mounting, and after
    every sequence of WebView events, manual retries and retry timeouts, no
    handler has thrown, the index has a strategy, an embed URL is stored,
    and rendering does not throw. *)
Theorem index_stays_in_bounds (p : Props) (cfg : SocialMediaConfig)
  (fuel : nat) (es : list Event) :
  config p = Some cfg ->
  embedStrategies cfg <> [] ->
  (forall s, In s (embedStrategies cfg) ->
             JS.truthy (getEmbedUrl s (url p)) = true) ->
  exists mounted log c out,
    mount (S fuel) p = Some (Some tt, mounted, log)
    /\ run (S fuel) p es mounted = Some (Some tt, c, out)
    /\ currentStrategyIndex (state c) < List.length (embedStrategies cfg)
    /\ JS.truthy (embedUrl (state c)) = true
    /\ render p (state c) <> RenderThrows.
Proof.
  intros Hcfg Hnonempty Hwork.
  destruct (embedStrategies cfg) as [|strategy rest] eqn:Hlist; [congruence|].
  assert (Hbuilt : JS.truthy (getEmbedUrl strategy (url p)) = true)
    by (apply Hwork; left; reflexivity).
  destruct (getEmbedUrl strategy (url p)) as [[|a r]|] eqn:Hurl; try discriminate.
  set (mounted := {| state := {| isLoading := true; error := None;
                                 currentStrategyIndex := 0; retryCount := 0;
                                 embedUrl := Some (String a r) |};
                     retryTimeoutRef := false |}).
  assert (Hmount : mount (S fuel) p
                   = Some (Some tt, mounted,
                           [LogTrying 0 (List.length (embedStrategies cfg)) (name strategy)])).
  { rewrite (mount_unfold (S fuel) p cfg Hcfg).
    rewrite (tryNextStrategy_works p cfg Hcfg initialState initial []
               strategy rest a r Hlist eq_refl Hurl).
    reflexivity. }
  assert (Hin : inBounds cfg mounted).
  { unfold inBounds. rewrite Hlist. cbn. repeat split; try lia; discriminate. }
  assert (Hwork' : forall s, In s (embedStrategies cfg) ->
                             JS.truthy (getEmbedUrl s (url p)) = true)
    by (rewrite Hlist; exact Hwork).
  destruct (run_inBounds p cfg Hcfg Hwork' fuel es mounted Hin) as (c & out & Hrun & Hin').
  eexists mounted, _, c, out.
  split; [exact Hmount|]. split; [exact Hrun|].
  split; [rewrite <- Hlist; apply Hin'|]. split; [apply Hin'|].
  apply (render_inBounds p cfg Hcfg Hwork' c Hin').
Qed.

End Extra.

(** The third strategy is the first one that builds a URL. *)
Lemma mount_first_working_strategy_witness :
  mount (U := Samples.lastResortUtils) 2 (defaultProps Samples.reel)
  = Some (Some tt,
          {| state := {| isLoading := true; error := None;
                         currentStrategyIndex := 2; retryCount := 0;
                         embedUrl := Some "https://www.instagram.com/reel/Cabc123" |};
             retryTimeoutRef := false |},
          [ LogTrying 0 3 "embed";
            LogAttempt "embed" false (Some "Failed to generate embed URL");
            LogTrying 1 3 "oembed";
            LogAttempt "oembed" false (Some "Failed to generate embed URL");
            LogTrying 2 3 "direct" ]).
Proof.
  refine (proj1 (mount_first_working_strategy (U := Samples.lastResortUtils)
                   (defaultProps Samples.reel) Samples.lastResortConfig
                   [ {| name := "embed"; getEmbedUrl := fun _ => None |};
                     {| name := "oembed"; getEmbedUrl := fun _ => Some "" |} ]
                   {| name := "direct"; getEmbedUrl := fun u => Some u |} []
                   _ _ 2 eq_refl eq_refl _ eq_refl (le_n 2))).
  intros s [<-|[<-|[]]]; reflexivity.
Defined.

(** Three strategies, none of which builds a URL. *)
Lemma exhausted_error_view_witness :
  render (U := Samples.barrenUtils) (defaultProps "https://www.tiktok.com/@user/video/1")
    (state (exhausted Samples.barrenConfig initial))
  = ErrorView (Some "Failed to load tiktok video after trying all strategies")
      4 3 true false.
Proof.
  refine (proj2 (exhausted_error_view (U := Samples.barrenUtils)
                   (defaultProps "https://www.tiktok.com/@user/video/1")
                   Samples.barrenConfig 3 eq_refl _ (le_n 3))).
  intros s [<-|[<-|[<-|[]]]]; reflexivity.
Defined.

(** The only strategy that builds a URL fails to load. *)
Lemma render_throws_after_failed_fallback_witness :
  render (U := Samples.noFallbackUtils) (defaultProps Samples.reel)
    {| isLoading := true; error := None; currentStrategyIndex := 2;
       retryCount := 0;
       embedUrl := Some "https://www.instagram.com/reel/Cabc123embed/" |}
  = RenderThrows.
Proof.
  refine (proj1 (proj2 (proj2 (proj2 (proj2
            (render_throws_after_failed_fallback (U := Samples.noFallbackUtils)
               (defaultProps Samples.reel) Samples.noFallbackConfig
               {| name := "embed"; getEmbedUrl := fun u => Some (u ++ "embed/") |}
               [ {| name := "oembed"; getEmbedUrl := fun _ => None |} ]
               _ _ {| description := None |} 0
               eq_refl eq_refl _ eq_refl _ eq_refl)))))).
  - discriminate.
  - intros s [<-|[]]; reflexivity.
Defined.

(** An HTTP 503 on the first of two strategies. *)
Lemma handleHttpError_retry_or_stop_witness :
  exists strategy,
    nth_error (embedStrategies Samples.twitterConfig) 0 = Some strategy
    /\ handleHttpError (U := Samples.twitterUtils) (defaultProps Samples.tweet)
         {| isLoading := false; error := None; currentStrategyIndex := 0;
            retryCount := 0; embedUrl := Some "https://twitter.com/user/status/1" |}
         {| statusCode := 503 |}
         {| state :=
              {| isLoading := false; error := None; currentStrategyIndex := 0;
                 retryCount := 0; embedUrl := Some "https://twitter.com/user/status/1" |};
            retryTimeoutRef := false |}
       = (Some tt,
          {| state :=
               {| isLoading := false; error := None; currentStrategyIndex := 0;
                  retryCount := 0; embedUrl := Some "https://twitter.com/user/status/1" |};
             retryTimeoutRef := true |},
          [LogAttempt (name strategy) false (Some "HTTP 503")]).
Proof.
  destruct (handleHttpError_retry_or_stop (U := Samples.twitterUtils)
              (defaultProps Samples.tweet)
              {| state :=
                   {| isLoading := false; error := None; currentStrategyIndex := 0;
                      retryCount := 0;
                      embedUrl := Some "https://twitter.com/user/status/1" |};
                 retryTimeoutRef := false |}
              Samples.twitterConfig {| statusCode := 503 |} eq_refl eq_refl)
    as (strategy & Hnth & Hrun).
  exists strategy. split; [exact Hnth | exact Hrun].
Defined.

(** Two strategies that both build a URL, and a burst of events. *)
Lemma index_stays_in_bounds_witness :
  exists mounted log c out,
    mount (U := Samples.twitterUtils) 1 (defaultProps Samples.tweet)
    = Some (Some tt, mounted, log)
    /\ run (U := Samples.twitterUtils) 1 (defaultProps Samples.tweet)
         [ LoadError {| description := None |}; RetryTimeout;
           LoadError {| description := None |}; ManualRetry;
           HttpError {| statusCode := 500 |}; RetryTimeout; RetryTimeout; LoadEnd ]
         mounted
       = Some (Some tt, c, out)
    /\ currentStrategyIndex (state c) < 2.
Proof.
  destruct (index_stays_in_bounds (U := Samples.twitterUtils)
              (defaultProps Samples.tweet) Samples.twitterConfig 0
              [ LoadError {| description := None |}; RetryTimeout;
                LoadError {| description := None |}; ManualRetry;
                HttpError {| statusCode := 500 |}; RetryTimeout; RetryTimeout; LoadEnd ]
              eq_refl)
    as (mounted & log & c & out & Hmount & Hrun & Hlt & _).
  - discriminate.
  - intros s [<-|[<-|[]]]; reflexivity.
  - exists mounted, log, c, out. split; [exact Hmount|]. split; [exact Hrun|exact Hlt].
Defined.

End SocialMediaPlayerExtra.

(* ------------------------------------------------------------------ *)
(** ** UniversalVideoPlayer: further properties *)

Module UniversalVideoPlayerExtra.
Import Handler Utils UniversalVideoPlayer UniversalVideoPlayerFacts.

Section Extra.
Context {U : SocialMediaUtils} {D : VideoSourceDetector} {M : MembershipProvider}.

(** *** Sources that are rendered in the WebView *)

Section WebView.
Variable p : Props.
Hypothesis Hsocial : useSocialMediaPlayer p = false.
Hypothesis Hweb : shouldUseWebView p = true.

Lemma render_webView (s : State) :
  JS.truthy (playbackError s) = false ->
  render p s = WebViewPlayer (embedUrl p s).
Proof. intros Herr. unfold render. rewrite Herr, Hsocial, Hweb. reflexivity. Qed.

(** A load error seen below [maxRetries] starts a retry timer, whatever the
    type of the source. *)
Lemma onWebViewError_retries (s : State) (nativeEvent : ErrorEvent) (c : Component) :
  (Z.of_nat (retryCount s) < maxRetries p)%Z ->
  onWebViewError p s nativeEvent c
  = (Some tt,
     {| state := state c; loadTimeoutRef := None; retryTimers := S (retryTimers c) |},
     []).
Proof.
  intros Hlt. apply Z.ltb_lt in Hlt. unfold onWebViewError. rewrite Hlt.
  destruct (type (sourceInfo p) =? "youtube");
    [|destruct (type (sourceInfo p) =? "adult")]; reflexivity.
Qed.

Lemma run_timeoutRounds (n : nat) :
  forall c,
    JS.truthy (playbackError (state c)) = false ->
    (Z.of_nat (retryCount (state c) + n) <= maxRetries p)%Z ->
    exists c',
      run p (timeoutRounds n) c = Some (c', [])
      /\ retryCount (state c') = retryCount (state c) + n
      /\ JS.truthy (playbackError (state c')) = false
      /\ retryTimers c' = retryTimers c.
Proof.
  induction n as [|n IH]; intros c Herr Hmax; cbn [timeoutRounds run].
  - exists c. rewrite Nat.add_0_r. auto.
  - assert (Hbudget : (Z.of_nat (retryCount (state c)) <? maxRetries p)%Z = true)
      by (apply Z.ltb_lt; lia).
    unfold step at 1. unfold enabled. rewrite (render_webView _ Herr).
    unfold handler. exec.
    unfold step at 1. unfold enabled, handler, loadTimeoutCallback, handleLoadTimeout.
    cbn [loadTimeoutRef]. rewrite Hbudget. exec.
    destruct (IH {| state := {| isLoading := true; playbackError := None;
                                retryCount := retryCount (state c) + 1 |};
                    loadTimeoutRef := None; retryTimers := retryTimers c |})
      as (c' & Hrun & Hcount & Herr' & Htimers).
    { reflexivity. } { cbn [state retryCount]. lia. }
    rewrite Hrun. exists c'. cbn [state retryCount retryTimers] in *.
    repeat split; auto; lia.
Qed.

End WebView.

(** X7. Loads that run into the load timeout use up the retries one by
    one: after [n <= maxRetries] rounds of a load start and its timeout the
    counter is [n], nothing has been reported and no timer is left; at
    [retryCount = maxRetries] the next timeout stores the timeout error,
    clears the loading flag, reports the error and leaves the counter as it
    is, and the error view is rendered. *)
Theorem load_timeouts_use_up_retries (p : Props) (n : nat) (c : Component) :
  useSocialMediaPlayer p = false ->
  shouldUseWebView p = true ->
  retryCount (state c) = 0 ->
  JS.truthy (playbackError (state c)) = false ->
  (Z.of_nat n <= maxRetries p)%Z ->
  exists c',
    run p (timeoutRounds n) c = Some (c', [])
    /\ retryCount (state c') = n
    /\ retryTimers c' = retryTimers c
    /\ (Z.of_nat n = maxRetries p ->
        run p [LoadStart; LoadTimeout] c'
        = Some ({| state := {| isLoading := false;
                               playbackError := Some timeoutError;
                               retryCount := n |};
                   loadTimeoutRef := None; retryTimers := retryTimers c |},
                reported p timeoutError)
        /\ strategyOf
             (render p {| isLoading := false; playbackError := Some timeoutError;
                          retryCount := n |})
           = ShowError).
Proof.
  intros Hsocial Hweb Hzero Herr Hmax.
  destruct (run_timeoutRounds p Hsocial Hweb n c Herr) as
    (c' & Hrun & Hcount & Herr' & Htimers); [lia|].
  rewrite Hzero in Hcount. cbn [Nat.add] in Hcount.
  exists c'. split; [exact Hrun|]. split; [exact Hcount|]. split; [exact Htimers|].
  intros Hlast. split; [|reflexivity].
  assert (Hbudget : (Z.of_nat (retryCount (state c')) <? maxRetries p)%Z = false)
    by (apply Z.ltb_ge; lia).
  cbn [run]. unfold step at 1. unfold enabled.
  rewrite (render_webView p Hsocial Hweb _ Herr').
  unfold handler. exec.
  unfold step at 1. unfold enabled, handler, loadTimeoutCallback, handleLoadTimeout.
  cbn [loadTimeoutRef]. rewrite Hbudget. unfold reported.
  destruct (onError p); exec; rewrite Hcount, Htimers; reflexivity.
Qed.

(** X8. A load that has ended or failed does not time out later: the
    handlers of the load end, the load error and the HTTP error all cancel
    the pending load timeout, so the timeout cannot fire after them. *)
Theorem load_timeout_cancelled (p : Props) (e : Event) (c c' : Component)
  (out : list Output) :
  match e with
  | LoadEnd | LoadError _ | HttpError _ => True
  | _ => False
  end ->
  step p e c = Some (c', out) ->
  loadTimeoutRef c' = None
  /\ step p LoadTimeout c' = None.
Proof.
  intros He Hstep.
  assert (Hnone : loadTimeoutRef c' = None).
  { unfold step in Hstep. destruct (enabled p e c); [|discriminate].
    destruct e as [| |ev|ev| |]; try contradiction;
      unfold handler, onWebViewError, onHttpError in Hstep.
    - revert Hstep. exec. intros [= <- _]. reflexivity.
    - revert Hstep.
      destruct (type (sourceInfo p) =? "youtube");
        [|destruct (type (sourceInfo p) =? "adult")];
        destruct (Z.of_nat (retryCount (state c)) <? maxRetries p)%Z;
        destruct (onError p); exec; intros [= <- _]; reflexivity.
    - revert Hstep.
      destruct (400 <=? statusCode ev)%Z;
        destruct (Z.of_nat (retryCount (state c)) <? maxRetries p)%Z;
        destruct (500 <=? statusCode ev)%Z;
        destruct (onError p); exec; intros [= <- _]; reflexivity. }
  split; [exact Hnone|]. unfold step, enabled. rewrite Hnone. reflexivity.
Qed.

(** X9. The end of a load puts the retry counter back to 0, also the end of
    a load that failed.  So with [maxRetries >= 2], when every load error is
    followed by the end of that load and then by its retry timer, the
    counter is 1 after every round, however many loads fail: no error is
    stored or reported, and a third YouTube URL is never reached. *)
Theorem retry_count_stuck_after_load_end (p : Props) (nativeEvent : ErrorEvent)
  (n : nat) (c : Component) :
  useSocialMediaPlayer p = false ->
  shouldUseWebView p = true ->
  (2 <= maxRetries p)%Z ->
  JS.truthy (playbackError (state c)) = false ->
  retryCount (state c) <= 1 ->
  exists c',
    run p (errorEndRounds nativeEvent (S n)) c = Some (c', [])
    /\ retryCount (state c') = 1
    /\ playbackError (state c') = None
    /\ retryTimers c' = retryTimers c.
Proof.
  intros Hsocial Hweb Hmax. revert c.
  assert (Hround : forall c,
            JS.truthy (playbackError (state c)) = false ->
            retryCount (state c) <= 1 ->
            run p [LoadError nativeEvent; LoadEnd; RetryTimer] c
            = Some ({| state := {| isLoading := true; playbackError := None;
                                   retryCount := 1 |};
                       loadTimeoutRef := None; retryTimers := retryTimers c |}, [])).
  { intros c Herr Hcount. cbn [run].
    unfold step at 1. unfold enabled. rewrite (render_webView p Hsocial Hweb _ Herr).
    unfold handler. rewrite (onWebViewError_retries p) by lia.
    unfold step at 1. unfold enabled. cbn [state].
    rewrite (render_webView p Hsocial Hweb _ Herr).
    unfold handler. exec.
    unfold step at 1. unfold enabled, handler. exec.
    cbn [Nat.ltb Nat.leb Nat.pred Nat.add]. reflexivity. }
  assert (Hcons : forall c c1 rest,
            run p [LoadError nativeEvent; LoadEnd; RetryTimer] c = Some (c1, []) ->
            run p (LoadError nativeEvent :: LoadEnd :: RetryTimer :: rest) c
            = run p rest c1).
  { intros c c1 rest. cbn [run].
    destruct (step p (LoadError nativeEvent) c) as [[c2 o2]|]; [|discriminate].
    destruct (step p LoadEnd c2) as [[c3 o3]|]; [|discriminate].
    destruct (step p RetryTimer c3) as [[c4 o4]|]; [|discriminate].
    rewrite !app_nil_r. intros [= <- Hout].
    apply app_eq_nil in Hout as [-> Hout]. apply app_eq_nil in Hout as [-> ->].
    destruct (run p rest c4) as [[c5 o5]|]; reflexivity. }
  induction n as [|n IH]; intros c Herr Hcount.
  - cbn [errorEndRounds]. rewrite (Hround c Herr Hcount).
    eexists. repeat split; reflexivity.
  - change (errorEndRounds nativeEvent (S (S n)))
      with (LoadError nativeEvent :: LoadEnd :: RetryTimer
            :: errorEndRounds nativeEvent (S n)).
    rewrite (Hcons c _ _ (Hround c Herr Hcount)).
    destruct (IH {| state := {| isLoading := true; playbackError := None;
                                retryCount := 1 |};
                    loadTimeoutRef := None; retryTimers := retryTimers c |})
      as (c' & Hrun & Hone & Hnone & Htimers).
    { reflexivity. } { cbn. lia. }
    exists c'. cbn [retryTimers] in Htimers. auto.
Qed.

(** X10. Unless the source is a YouTube source with a video id, the URL
    given to the WebView does not depend on the retry counter: a retry
    loads the URL that failed. *)
Theorem embedUrl_ignores_retryCount (p : Props) (s s' : State) :
  (type (sourceInfo p) =? "youtube") && JS.truthy (videoId (sourceInfo p)) = false ->
  embedUrl p s = embedUrl p s'
  /\ (embedUrl p s = url p
      \/ exists id, videoId (sourceInfo p) = Some id
                    /\ type (sourceInfo p) = "vimeo"
                    /\ embedUrl p s = getVimeoEmbedUrl p id).
Proof.
  intros Hnot. unfold embedUrl.
  destruct (type (sourceInfo p) =? "youtube") eqn:Hyt;
    destruct (videoId (sourceInfo p)) as [[|a r]|] eqn:Hid;
    try discriminate; cbn [andb] in *;
    try (destruct (type (sourceInfo p) =? "vimeo") eqn:Hvimeo);
    auto.
  apply String.eqb_eq in Hvimeo. split; [reflexivity|]. right.
  exists (String a r). auto.
Qed.


Lemma strategyOf_render_clear (p : Props) (s : State) :
  JS.truthy (playbackError s) = false ->
  strategyOf (render p s) = selectedStrategy p.
Proof.
  intros Herr.
  unfold render, selectedStrategy, renderError, renderWebViewPlayer,
    renderNativePlayer. rewrite Herr.
  unfold shouldUseNativePlayerRender, shouldUseWebView, useSocialMediaPlayer,
    oneOf, webViewTypes, nativeTypes.
  cbn [existsb]. rewrite !orb_false_r, !orb_assoc.
  destruct (getSocialMediaConfig (url p)); cbn [andb negb].
  - destruct (_ || (type (sourceInfo p) =? "tiktok")); cbn [negb andb];
      [reflexivity|].
    destruct (_ || (type (sourceInfo p) =? "dropbox")); cbn [negb andb];
      [reflexivity|].
    destruct (_ || (type (sourceInfo p) =? "dash")); reflexivity.
  - destruct (_ || (type (sourceInfo p) =? "dropbox")); cbn [negb andb];
      [reflexivity|].
    destruct (_ || (type (sourceInfo p) =? "dash")); reflexivity.
Qed.

(** X12. What is rendered once the component is mounted depends on the url
    and on the eligibility of the tier alone: the strategy the url selects
    when the video may be played, with nothing reported, and the error view
    when it may not, with the reason reported.  The age verification
    callback is called in both cases when the source requires it. *)
Theorem mount_then_render (p : Props) :
  let message := JS.or_else (reason (playbackEligibility p)) "Cannot play this video" in
  let ageCheck :=
    if requiresAgeVerification (sourceInfo p) && onAgeVerificationRequired p
    then [CallOnAgeVerificationRequired] else [] in
  strategyOf (render p (state (fst (mount p))))
  = (if canPlay (playbackEligibility p) then selectedStrategy p else ShowError)
  /\ snd (mount p)
     = ((if canPlay (playbackEligibility p) then [] else reported p message)
        ++ ageCheck)%list
  /\ retryCount (state (fst (mount p))) = 0
  /\ retryTimers (fst (mount p)) = 0
  /\ loadTimeoutRef (fst (mount p)) = None.
Proof.
  cbv zeta. unfold mount, eligibilityEffect, reported.
  destruct (canPlay (playbackEligibility p)); cbn [negb].
  - destruct (requiresAgeVerification (sourceInfo p));
      destruct (onAgeVerificationRequired p); exec;
      (split; [apply strategyOf_render_clear; reflexivity|repeat split]).
  - assert (Htruthy : JS.truthy
              (Some (JS.or_else (reason (playbackEligibility p))
                       "Cannot play this video")) = true)
      by (apply JSFacts.truthy_or_else; discriminate).
    destruct (requiresAgeVerification (sourceInfo p));
      destruct (onAgeVerificationRequired p); destruct (onError p); exec;
      (split; [unfold render; cbn [playbackError]; rewrite Htruthy; reflexivity
              |repeat split]).
Qed.

Lemma dropWhiteSpace_blank (fwd : bool) (l : list ascii) :
  Forall (fun ch => JS.isWhiteSpace1 ch = true) l ->
  JS.dropWhiteSpace fwd l = [].
Proof.
  induction 1 as [|ch l Hch _ IH]; cbn [JS.dropWhiteSpace]; [reflexivity|].
  rewrite Hch. exact IH.
Qed.

(** X13. A url made of ASCII white space only (tabs, line feeds, carriage
    returns, spaces; also the empty url) is never given to the native
    player, whatever type is detected for it: the sample url is used. *)
Theorem safeUrl_blank (p : Props) :
  Forall (fun ch => JS.isWhiteSpace1 ch = true) (list_ascii_of_string (url p)) ->
  safeUrl p = sampleUrl.
Proof.
  intros Hblank.
  assert (Htrim : JS.trim (url p) = "").
  { unfold JS.trim. rewrite (dropWhiteSpace_blank true _ Hblank). reflexivity. }
  unfold safeUrl. rewrite Htrim.
  rewrite !andb_false_r. reflexivity.
Qed.

Lemma run_app (p : Props) (es1 es2 : list Event) :
  forall c,
    run p (es1 ++ es2)%list c
    = match run p es1 c with
      | Some (c1, o1) =>
          match run p es2 c1 with
          | Some (c2, o2) => Some (c2, (o1 ++ o2)%list)
          | None => None
          end
      | None => None
      end.
Proof.
  induction es1 as [|e es1 IH]; intros c; cbn [app run].
  - destruct (run p es2 c) as [[c2 o2]|]; reflexivity.
  - destruct (step p e c) as [[c1 o1]|]; [|reflexivity].
    rewrite IH. destruct (run p es1 c1) as [[c2 o2]|]; [|reflexivity].
    destruct (run p es2 c2) as [[c3 o3]|]; [|reflexivity].
    rewrite app_assoc. reflexivity.
Qed.

(** X14. The retry counter has no bound.  While the counter is below
    [maxRetries], every load error starts a retry timer of its own, and each
    timer adds one to the counter when it fires, whatever the counter is by
    then: [k] load errors received before any of their timers has fired
    leave the counter at [k] once the timers have fired, with no error
    stored or reported. *)
Theorem retryCount_unbounded (p : Props) (nativeEvent : ErrorEvent) (k : nat)
  (c : Component) :
  useSocialMediaPlayer p = false ->
  shouldUseWebView p = true ->
  (0 < maxRetries p)%Z ->
  retryCount (state c) = 0 ->
  JS.truthy (playbackError (state c)) = false ->
  retryTimers c = 0 ->
  exists c',
    run p (repeat (LoadError nativeEvent) k ++ repeat RetryTimer k)%list c
    = Some (c', [])
    /\ retryCount (state c') = k
    /\ retryTimers c' = 0
    /\ JS.truthy (playbackError (state c')) = false.
Proof.
  intros Hsocial Hweb Hmax Hzero Herr Htimers.
  assert (Herrors : forall n c1,
            retryCount (state c1) = 0 ->
            JS.truthy (playbackError (state c1)) = false ->
            exists c2,
              run p (repeat (LoadError nativeEvent) n) c1 = Some (c2, [])
              /\ state c2 = state c1
              /\ retryTimers c2 = retryTimers c1 + n).
  { induction n as [|n IH]; intros c1 Hc1 He1; cbn [repeat run].
    - exists c1. rewrite Nat.add_0_r. auto.
    - unfold step. unfold enabled. rewrite (render_webView p Hsocial Hweb _ He1).
      unfold handler. rewrite (onWebViewError_retries p) by lia.
      destruct (IH {| state := state c1; loadTimeoutRef := None;
                      retryTimers := S (retryTimers c1) |} Hc1 He1)
        as (c2 & Hrun & Hstate & Hcount).
      rewrite Hrun. exists c2. cbn [state retryTimers] in *.
      repeat split; auto; lia. }
  assert (Hfire : forall n c1,
            n <= retryTimers c1 ->
            JS.truthy (playbackError (state c1)) = false ->
            exists c2,
              run p (repeat RetryTimer n) c1 = Some (c2, [])
              /\ retryCount (state c2) = retryCount (state c1) + n
              /\ retryTimers c2 = retryTimers c1 - n
              /\ JS.truthy (playbackError (state c2)) = false).
  { induction n as [|n IH]; intros c1 Hn He1; cbn [repeat run].
    - exists c1. rewrite Nat.add_0_r, Nat.sub_0_r. auto.
    - unfold step. unfold enabled.
      replace (0 <? retryTimers c1)%nat with true
        by (symmetry; apply Nat.ltb_lt; lia).
      unfold handler. exec.
      destruct (IH {| state := {| isLoading := true; playbackError := None;
                                  retryCount := retryCount (state c1) + 1 |};
                      loadTimeoutRef := loadTimeoutRef c1;
                      retryTimers := Nat.pred (retryTimers c1) |})
        as (c2 & Hrun & Hcount & Hleft & He2).
      { cbn [retryTimers]. lia. } { reflexivity. }
      rewrite Hrun. exists c2. cbn [state retryCount retryTimers] in *.
      repeat split; auto; lia. }
  destruct (Herrors k c Hzero Herr) as (c1 & Hrun1 & Hstate & Hcount).
  destruct (Hfire k c1) as (c2 & Hrun2 & Hcount2 & Hleft & Herr2).
  { lia. } { rewrite Hstate. exact Herr. }
  exists c2. rewrite run_app, Hrun1, Hrun2. rewrite Hstate, Hzero in Hcount2.
  repeat split; auto; lia.
Qed.

End Extra.

(** A YouTube video whose every load times out, with the default props. *)
Lemma load_timeouts_use_up_retries_witness :
  exists c,
    run (U := Samples.noSocialMedia) (D := Samples.youtubeDetector)
      (M := Samples.premiumTier) (defaultProps Samples.youtubeVideo)
      (timeoutRounds 3) initial
    = Some (c, [])
    /\ retryCount (state c) = 3.
Proof.
  destruct (load_timeouts_use_up_retries
              (U := Samples.noSocialMedia) (D := Samples.youtubeDetector)
              (M := Samples.premiumTier) (defaultProps Samples.youtubeVideo)
              3 initial eq_refl eq_refl eq_refl eq_refl)
    as (c & Hrun & Hcount & _).
  { cbn. lia. }
  exists c. split; [exact Hrun | exact Hcount].
Defined.

(** A load error on a YouTube video while its load timeout is pending. *)
Lemma load_timeout_cancelled_witness :
  step (U := Samples.noSocialMedia) (D := Samples.youtubeDetector)
    (M := Samples.premiumTier) (defaultProps Samples.youtubeVideo) LoadTimeout
    {| state := initialState; loadTimeoutRef := None; retryTimers := 1 |}
  = None.
Proof.
  refine (proj2 (load_timeout_cancelled
                   (U := Samples.noSocialMedia) (D := Samples.youtubeDetector)
                   (M := Samples.premiumTier) (defaultProps Samples.youtubeVideo)
                   (LoadError {| description := None |})
                   {| state := initialState; loadTimeoutRef := Some initialState;
                      retryTimers := 0 |}
                   _ [] I _)).
  vm_compute. reflexivity.
Defined.

(** Four failed loads of a YouTube video, each followed by its load end. *)
Lemma retry_count_stuck_after_load_end_witness :
  exists c,
    run (U := Samples.noSocialMedia) (D := Samples.youtubeDetector)
      (M := Samples.premiumTier) (defaultProps Samples.youtubeVideo)
      (errorEndRounds {| description := None |} 4) initial
    = Some (c, [])
    /\ retryCount (state c) = 1.
Proof.
  destruct (retry_count_stuck_after_load_end
              (U := Samples.noSocialMedia) (D := Samples.youtubeDetector)
              (M := Samples.premiumTier) (defaultProps Samples.youtubeVideo)
              {| description := None |} 3 initial eq_refl eq_refl)
    as (c & Hrun & Hcount & _).
  { cbn. lia. } { reflexivity. } { cbn. lia. }
  exists c. split; [exact Hrun | exact Hcount].
Defined.

(** A Vimeo video before and after two retries. *)
Lemma embedUrl_ignores_retryCount_witness :
  embedUrl (D := Samples.vimeoDetector) (defaultProps "https://vimeo.com/76979871")
    {| isLoading := true; playbackError := None; retryCount := 0 |}
  = embedUrl (D := Samples.vimeoDetector) (defaultProps "https://vimeo.com/76979871")
      {| isLoading := true; playbackError := None; retryCount := 2 |}.
Proof.
  exact (proj1 (embedUrl_ignores_retryCount
                  (D := Samples.vimeoDetector)
                  (defaultProps "https://vimeo.com/76979871")
                  {| isLoading := true; playbackError := None; retryCount := 0 |}
                  {| isLoading := true; playbackError := None; retryCount := 2 |}
                  eq_refl)).
Defined.

(** A url of two spaces and a tab, detected as a media file. *)
Lemma safeUrl_blank_witness :
  safeUrl (D := Samples.directDetector)
    (defaultProps (String " " (String " " (String (ascii_of_nat 9) EmptyString))))
  = sampleUrl.
Proof.
  apply (safeUrl_blank (D := Samples.directDetector)).
  repeat constructor.
Defined.

(** Seven load errors on a YouTube video before any retry timer fires. *)
Lemma retryCount_unbounded_witness :
  exists c,
    run (U := Samples.noSocialMedia) (D := Samples.youtubeDetector)
      (M := Samples.premiumTier) (defaultProps Samples.youtubeVideo)
      (repeat (LoadError {| description := None |}) 7 ++ repeat RetryTimer 7)%list
      initial
    = Some (c, [])
    /\ retryCount (state c) = 7.
Proof.
  destruct (retryCount_unbounded
              (U := Samples.noSocialMedia) (D := Samples.youtubeDetector)
              (M := Samples.premiumTier) (defaultProps Samples.youtubeVideo)
              {| description := None |} 7 initial eq_refl eq_refl)
    as (c & Hrun & Hcount & _).
  { cbn. lia. } { reflexivity. } { reflexivity. } { reflexivity. }
  exists c. split; [exact Hrun | exact Hcount].
Defined.

End UniversalVideoPlayerExtra.
